(** * The Verge scraper (scraper.js): date normalisation, the two sinks and
      the verification pass, as a shallow embedding.

    Modelling decisions.
    - A JavaScript string is a Rocq [string]; every character stands for one
      code unit in the range 0..255 (Latin-1).
    - A JavaScript number is [number]: [NaN] or an exact integer.  The code
      only builds numbers from digit runs, counters and calendar fields.
    - [undefined] is [None]; an array read past the end gives it.
    - The calendar arithmetic of the built-in Date object follows the
      ECMAScript definitions (MakeFullYear, MakeDay, TimeClip, YearFromTime,
      MonthFromTime, DateFromTime) at the granularity of whole days; local
      time is taken to be UTC.
    - The year read from the system clock is an argument: [year] for one
      call of [dateFormatConversion], [years i] for the call made by
      iteration [i] of the loop of [saveToCsv].
    - Awaited calls and callbacks are run to completion in program order,
      with one exception: the program never calls [db.serialize], so the
      connection is in its parallel mode and the program does not fix the
      order in which the INSERT statements of [saveToDatabase] run.  [saveToDatabase_scheduled] takes
      that order as an argument, and with it the key the engine picks once
      the largest key of the table is the largest 64-bit integer;
      [saveToDatabase] is the run in which the statements execute in index
      order and every new key is one more than the largest.
    - The file system is a finite map from file names to contents; the
      SQLite file is the [articles] table, if it exists, as the list of its
      rows in insertion order. *)

From Stdlib Require Import ZArith NArith Lia Bool List Ascii String.
From Stdlib Require Import DecimalString DecimalPos DecimalFacts DecimalZ.
From stdpp Require Import base option list strings gmap.

Local Open Scope Z_scope.

#[local] Arguments String.append !_ _ : simpl nomatch.

(** ** JavaScript runtime pieces used by the program *)

Module JS.

Inductive number : Type :=
| NaN
| Int (z : Z).

Definition isNaN (x : number) : bool :=
  match x with NaN => true | Int _ => false end.

(** [x + 1] on numbers. *)
Definition add1 (x : number) : number :=
  match x with NaN => NaN | Int z => Int (z + 1) end.

(** ToNumber of an index that may be [undefined]. *)
Definition ToNumber (o : option Z) : number :=
  match o with None => NaN | Some z => Int z end.

(** ToString of a string that may be [undefined], as a template literal
    or [parseInt] applies it. *)
Definition ToString (o : option string) : string :=
  match o with None => "undefined" | Some s => s end.

(** Number::toString for the numbers of this program. *)
Definition Number_toString (x : number) : string :=
  match x with
  | NaN => "NaN"
  | Int z => NilEmpty.string_of_int (Z.to_int z)
  end.

Definition code (c : ascii) : N := N_of_ascii c.

Definition is_digit (c : ascii) : bool :=
  ((48 <=? code c) && (code c <=? 57))%N.

(** WhiteSpace and LineTerminator code units below 256. *)
Definition is_space (c : ascii) : bool :=
  (((9 <=? code c) && (code c <=? 13)) || (code c =? 32) || (code c =? 160))%N.

Definition lower_char (c : ascii) : ascii :=
  let n := code c in
  if (((65 <=? n) && (n <=? 90)) || ((192 <=? n) && (n <=? 214))
      || ((216 <=? n) && (n <=? 222)))%N
  then ascii_of_N (n + 32) else c.

Fixpoint toLowerCase (s : string) : string :=
  match s with
  | EmptyString => EmptyString
  | String c r => String (lower_char c) (toLowerCase r)
  end.

(** [s.substr(0, n)] *)
Definition substr0 (n : nat) (s : string) : string := substring 0 n s.

Fixpoint trimStart (s : string) : string :=
  match s with
  | EmptyString => EmptyString
  | String c r => if is_space c then trimStart r else s
  end.

Fixpoint trimEnd (s : string) : string :=
  match s with
  | EmptyString => EmptyString
  | String c r =>
      match trimEnd r with
      | EmptyString => if is_space c then EmptyString else String c EmptyString
      | r' => String c r'
      end
  end.

Definition trim (s : string) : string := trimEnd (trimStart s).

(** [s.split(sep)] for a one-character separator. *)
Fixpoint split (sep : ascii) (s : string) : list string :=
  match s with
  | EmptyString => [EmptyString]
  | String c r =>
      if Ascii.eqb c sep then EmptyString :: split sep r
      else match split sep r with
           | [] => [String c EmptyString]
           | w :: ws => String c w :: ws
           end
  end.

(** [s.startsWith(p)] *)
Fixpoint startsWith (p s : string) : bool :=
  match p with
  | EmptyString => true
  | String a p' =>
      match s with
      | EmptyString => false
      | String b s' => Ascii.eqb a b && startsWith p' s'
      end
  end.

(** The longest prefix of decimal digits. *)
Fixpoint take_digits (s : string) : string :=
  match s with
  | EmptyString => EmptyString
  | String c r => if is_digit c then String c (take_digits r) else EmptyString
  end.

(** [s.match(/\d+/)]: the first maximal run of digits ([m[0]]), or [None]
    for [null]. *)
Fixpoint match_digits (s : string) : option string :=
  match s with
  | EmptyString => None
  | String c r =>
      if is_digit c then Some (String c (take_digits r)) else match_digits r
  end.

(** [l.findIndex(p)] *)
Fixpoint findIndex {A : Type} (p : A -> bool) (l : list A) : Z :=
  match l with
  | [] => -1
  | x :: r =>
      if p x then 0
      else let k := findIndex p r in if k =? -1 then -1 else k + 1
  end.

(** Value of a digit in the given radix, if it is one. *)
Definition digit_value (radix : Z) (c : ascii) : option Z :=
  let n := Z.of_N (code c) in
  let v := if (48 <=? n) && (n <=? 57) then n - 48
           else if (97 <=? n) && (n <=? 122) then n - 87
           else if (65 <=? n) && (n <=? 90) then n - 55
           else radix in
  if v <? radix then Some v else None.

(** Reads the longest prefix of digits, accumulating its value. *)
Fixpoint parse_digits (radix : Z) (acc : number) (s : string) : number :=
  match s with
  | EmptyString => acc
  | String c r =>
      match digit_value radix c with
      | None => acc
      | Some v =>
          parse_digits radix
            (Int (match acc with NaN => v | Int a => radix * a + v end)) r
      end
  end.

Definition negate (x : number) : number :=
  match x with NaN => NaN | Int z => Int (- z) end.

Definition string_tail (s : string) : string :=
  match s with
  | EmptyString => EmptyString
  | String _ r => r
  end.

(** [parseInt(s)] with no radix argument: leading white space, a sign, a
    [0x] prefix, then the longest run of digits; [NaN] if there is none. *)
Definition parseInt (s : string) : number :=
  let s1 := trimStart s in
  let neg := startsWith "-" s1 in
  let s2 := if neg || startsWith "+" s1 then string_tail s1 else s1 in
  let v :=
    if startsWith "0x" s2 || startsWith "0X" s2
    then parse_digits 16 NaN (string_tail (string_tail s2))
    else parse_digits 10 NaN s2 in
  if neg then negate v else v.

(** Every character of [s] satisfies [p]. *)
Fixpoint all_chars (p : ascii -> bool) (s : string) : bool :=
  match s with
  | EmptyString => true
  | String c r => p c && all_chars p r
  end.

Definition is_digit_or_minus (c : ascii) : bool :=
  is_digit c || Ascii.eqb c "-".

(** *** The Date object, in whole days since 1970-01-01 *)
Module Date.

Definition DaysInYear (y : Z) : Z :=
  if negb (y mod 4 =? 0) then 365
  else if negb (y mod 100 =? 0) then 366
  else if negb (y mod 400 =? 0) then 365
  else 366.

Definition InLeapYear (y : Z) : Z := DaysInYear y - 365.

Definition DayFromYear (y : Z) : Z :=
  365 * (y - 1970) + (y - 1969) / 4 - (y - 1901) / 100 + (y - 1601) / 400.

(** The largest [y] with [DayFromYear y <= d]. *)
Definition YearFromDay (d : Z) : Z :=
  let y := 1970 + (400 * d) / 146097 in
  if d <? DayFromYear y then y - 1
  else if DayFromYear (y + 1) <=? d then y + 1
  else y.

Definition DayWithinYear (d : Z) : Z := d - DayFromYear (YearFromDay d).

(** First day, within a year, of month [m] (0-based); 12 gives the
    length of the year. *)
Definition MonthStart (leap m : Z) : Z :=
  if m <=? 0 then 0
  else if m =? 1 then 31
  else if m =? 2 then 59 + leap
  else if m =? 3 then 90 + leap
  else if m =? 4 then 120 + leap
  else if m =? 5 then 151 + leap
  else if m =? 6 then 181 + leap
  else if m =? 7 then 212 + leap
  else if m =? 8 then 243 + leap
  else if m =? 9 then 273 + leap
  else if m =? 10 then 304 + leap
  else if m =? 11 then 334 + leap
  else 365 + leap.

Definition MonthFromDay (d : Z) : Z :=
  let w := DayWithinYear d in
  let leap := InLeapYear (YearFromDay d) in
  if w <? 31 then 0
  else if w <? 59 + leap then 1
  else if w <? 90 + leap then 2
  else if w <? 120 + leap then 3
  else if w <? 151 + leap then 4
  else if w <? 181 + leap then 5
  else if w <? 212 + leap then 6
  else if w <? 243 + leap then 7
  else if w <? 273 + leap then 8
  else if w <? 304 + leap then 9
  else if w <? 334 + leap then 10
  else 11.

Definition DateFromDay (d : Z) : Z :=
  DayWithinYear d + 1
  - MonthStart (InLeapYear (YearFromDay d)) (MonthFromDay d).

(** Time values reach 100,000,000 days either side of the epoch. *)
Definition maxDay : Z := 100000000.

Definition in_range (d : Z) : bool := Z.abs d <=? maxDay.

Definition MakeFullYear (y : Z) : Z :=
  if (0 <=? y) && (y <=? 99) then 1900 + y else y.

Definition MakeDay (year : Z) (month date : number) : number :=
  match month, date with
  | Int m, Int dt =>
      let ym := year + m / 12 in
      let mn := m mod 12 in
      let t := DayFromYear ym + MonthStart (InLeapYear ym) mn in
      if in_range t then Int (t + dt - 1) else NaN
  | _, _ => NaN
  end.

Definition TimeClip (t : number) : number :=
  match t with
  | NaN => NaN
  | Int d => if in_range d then Int d else NaN
  end.

(** [new Date(year, month, date)]: the day number held by the object. *)
Definition make (year : Z) (month date : number) : number :=
  TimeClip (MakeDay (MakeFullYear year) month date).

Definition getFullYear (t : number) : number :=
  match t with NaN => NaN | Int d => Int (YearFromDay d) end.

Definition getMonth (t : number) : number :=
  match t with NaN => NaN | Int d => Int (MonthFromDay d) end.

Definition getDate (t : number) : number :=
  match t with NaN => NaN | Int d => Int (DateFromDay d) end.

(** The day number of the [k]-th day (1-based) of month [m] of year
    [y]; [k] may lie outside the month. *)
Definition dayNumber (y m k : Z) : Z :=
  DayFromYear y + MonthStart (InLeapYear y) m + k - 1.

(** Length of month [m] (0-based) of year [y]. *)
Definition DaysInMonth (y m : Z) : Z :=
  MonthStart (InLeapYear y) (m + 1) - MonthStart (InLeapYear y) m.

End Date.

End JS.

Import JS.

(** ** scraper.js, lines 10-30: the date helpers *)

Definition monthNames : list string :=
  ["jan"; "feb"; "mar"; "apr"; "may"; "jun";
   "jul"; "aug"; "sep"; "oct"; "nov"; "dec"].

Definition getMonthIndex (month : string) : option Z :=
  let monthIndex :=
    findIndex
      (fun m => String.eqb (toLowerCase m) (substr0 3 (toLowerCase month)))
      monthNames in
  if negb (monthIndex =? -1) then Some monthIndex else None.

Definition getDate (str : string) : option string :=
  match match_digits str with
  | Some d => Some d
  | None => None
  end.

(** [year] is what [new Date().getFullYear()] returns at the call. *)
Definition dateFormatConversion (year : Z) (input : string) : string :=
  let date :=
    Date.make year (ToNumber (getMonthIndex input))
      (parseInt (ToString (getDate input))) in
  Number_toString (Date.getFullYear date) +:+ "/" +:+
  Number_toString (add1 (Date.getMonth date)) +:+ "/" +:+
  Number_toString (Date.getDate date).

(** How a call ended: with a value, or with an exception. *)
Inductive result (A : Type) : Type :=
| Returns (value : A)
| Throws (error : string).

Arguments Returns {A} value.
Arguments Throws {A} error.

(** The call [dateFormatConversion(input)] on a value that is a string or
    [undefined]; on [undefined], [month.toLowerCase()] in [getMonthIndex]
    throws a TypeError. The function has no other way to fail. *)
Definition dateFormatConversion_call (year : Z) (input : option string)
  : result string :=
  match input with
  | None => Throws "TypeError"
  | Some input => Returns (dateFormatConversion year input)
  end.

(** The month after month [m] (0-based) of [year]. *)
Definition following_month (year m : Z) : Z * Z :=
  if m =? 11 then (year + 1, 0) else (year, m + 1).

(** ** scraper.js, lines 32-88: the scraper and what it collects *)

Definition DATE_FORMAT : string := "ddmmyyyy".

Record VergeScraper : Type := {
  headlines : list string;
  authors : list string;
  dates : list string;
  urls : list string;
  id : Z
}.

Definition constructor : VergeScraper :=
  {| headlines := []; authors := []; dates := []; urls := []; id := 0 |}.

(** One element of the list that [page.evaluate] returns. *)
Record ArticleData : Type := {
  headline : string;
  url : string;
  author : string;
  date : string
}.

(** Lines 79-84: the body of [data.forEach]. *)
Definition store_article (s : VergeScraper) (articleData : ArticleData)
  : VergeScraper :=
  {| headlines := headlines s ++ [headline articleData];
     authors := authors s ++ [author articleData];
     dates := dates s ++ [date articleData];
     urls := urls s ++ [url articleData];
     id := id s |}.

(** [scrape], given the list [data] the browser returned. *)
Definition scrape (data : list ArticleData) (s : VergeScraper) : VergeScraper :=
  fold_left store_article data s.

(** ** The file system *)

Definition writeFile (file data : string) (fs : gmap string string)
  : gmap string string :=
  <[file := data]> fs.

Definition appendFile (file data : string) (fs : gmap string string)
  : gmap string string :=
  <[file := default EmptyString (fs !! file) +:+ data]> fs.

(** ** scraper.js, lines 90-108: the text sink *)

Definition newline : string := String "010" EmptyString.
Definition quote : string := String "034" EmptyString.

Definition header : string :=
  "id | URL | headline | author | date" +:+ newline.

Definition filename : string := DATE_FORMAT +:+ "_verge.csv".

(** The line written for the given fields. *)
Definition line_of (id : Z) (url headline author date : string) : string :=
  Number_toString (Int id) +:+ " | " +:+ url +:+ " | " +:+
  quote +:+ headline +:+ quote +:+ " | " +:+ author +:+ " | " +:+
  date +:+ newline.

(** The [for] loop of [saveToCsv] with [n] iterations left, at index [i].
    [years i] is the year the clock shows in iteration [i]. An index past
    the end of an array gives [undefined]. *)
Fixpoint saveToCsv_loop (years : nat -> Z) (n i : nat)
    (s : VergeScraper) (fs : gmap string string)
  : VergeScraper * gmap string string * result unit :=
  match n with
  | O => (s, fs, Returns tt)
  | S n' =>
      let s1 := {| headlines := headlines s; authors := authors s;
                   dates := dates s; urls := urls s; id := id s + 1 |} in
      match dateFormatConversion_call (years i) (dates s !! i) with
      | Throws e => (s1, fs, Throws e)
      | Returns date =>
          let line :=
            line_of (id s1) (ToString (urls s !! i))
              (ToString (headlines s !! i)) (ToString (authors s !! i))
              date in
          saveToCsv_loop years n' (S i) s1 (appendFile filename line fs)
      end
  end.

Definition saveToCsv (years : nat -> Z) (s : VergeScraper)
    (fs : gmap string string)
  : VergeScraper * gmap string string * result unit :=
  saveToCsv_loop years (length (headlines s)) 0 s
    (writeFile filename header fs).

(** ** scraper.js, lines 6-7 and 110-139: the row store *)

(** A row of [articles]; a column bound to [undefined] holds NULL. *)
Record Row : Type := {
  row_id : Z;
  row_url : option string;
  row_headline : option string;
  row_author : option string;
  row_date : option string
}.

(** The connection [db] and, behind it, the table if it exists. *)
Record Database : Type := {
  is_open : bool;
  articles : option (list Row)
}.

(** Line 7: [new sqlite3.Database] on a file holding [table]. *)
Definition open_database (table : option (list Row)) : Database :=
  {| is_open := true; articles := table |}.

(** INTEGER PRIMARY KEY: one more than the largest key in the table; see
    [rowid_for] for a table whose largest key is the largest possible. *)
Definition next_rowid (t : list Row) : Z :=
  match map row_id t with
  | [] => 1
  | k :: ks => 1 + fold_right Z.max k ks
  end.

(** INSERT INTO articles (url, headline, author, date) VALUES (?, ?, ?, ?) *)
Definition insert_article (url headline author date : option string)
    (t : list Row) : list Row :=
  t ++ [{| row_id := next_rowid t; row_url := url; row_headline := headline;
           row_author := author; row_date := date |}].

(** The [for] loop of the callback, its statements run in index order. *)
Definition insert_all (s : VergeScraper) (t : list Row) : list Row :=
  fold_left
    (fun t i =>
       insert_article (urls s !! i) (headlines s !! i) (authors s !! i)
         (dates s !! i) t)
    (seq 0 (length (headlines s))) t.

(** [saveToDatabase] with its callback run to the end; the second component
    is what it prints. A statement on a closed connection fails. *)
Definition saveToDatabase (s : VergeScraper) (db : Database)
  : Database * list string :=
  if is_open db then
    ({| is_open := false;
        articles := Some (insert_all s (default [] (articles db))) |}, [])
  else (db, ["SQLITE_MISUSE: Database is closed"]).

(** One run of the program against the file: a fresh connection, then
    [saveToDatabase]; the result is the table left in the file. *)
Definition persist (s : VergeScraper) (table : option (list Row))
  : option (list Row) :=
  articles (fst (saveToDatabase s (open_database table))).

(** *** The same run, with the choices of the engine as arguments *)

(** Keys are 64-bit signed integers. *)
Definition maxRowid : Z := 9223372036854775807.

(** The key of a new row.  Once the largest key is [maxRowid] the engine
    tries keys at random: [pick t] is the unused key it settles on, or
    [None] when it gives up and the statement fails. *)
Definition rowid_for (pick : list Row -> option Z) (t : list Row)
  : option Z :=
  if next_rowid t <=? maxRowid then Some (next_rowid t) else pick t.

(** INSERT INTO articles (url, headline, author, date) VALUES (?, ?, ?, ?);
    a statement that fails leaves the table as it is. *)
Definition insert_row (pick : list Row -> option Z)
    (url headline author date : option string) (t : list Row) : list Row :=
  match rowid_for pick t with
  | Some k => t ++ [{| row_id := k; row_url := url; row_headline := headline;
                       row_author := author; row_date := date |}]
  | None => t
  end.

(** The statements of the [for] loop, lines 125-131: the loop hands one
    statement per index to the engine, which runs each of them as a whole
    but, the connection being in parallel mode, in no promised order;
    [order] lists the indices in the order in which their statements
    run.  [db.close()] waits for all of them. *)
Definition insert_scheduled (pick : list Row -> option Z) (order : list nat)
    (s : VergeScraper) (t : list Row) : list Row :=
  fold_left
    (fun t i =>
       insert_row pick (urls s !! i) (headlines s !! i) (authors s !! i)
         (dates s !! i) t)
    order t.

Definition saveToDatabase_scheduled (pick : list Row -> option Z)
    (order : list nat) (s : VergeScraper) (db : Database)
  : Database * list string :=
  if is_open db then
    ({| is_open := false;
        articles :=
          Some (insert_scheduled pick order s (default [] (articles db))) |},
     [])
  else (db, ["SQLITE_MISUSE: Database is closed"]).

Definition persist_scheduled (pick : list Row -> option Z) (order : list nat)
    (s : VergeScraper) (table : option (list Row)) : option (list Row) :=
  articles (fst (saveToDatabase_scheduled pick order s (open_database table))).

(** The orders in which the statements of one run may execute: every index
    of [headlines] once. *)
Definition schedule (s : VergeScraper) (order : list nat) : Prop :=
  Permutation order (seq 0 (length (headlines s))).

(** The table has [n] unused keys above its largest one. *)
Definition room (n : nat) (t : list Row) : Prop :=
  next_rowid t + Z.of_nat n <= maxRowid + 1.

(** ** scraper.js, lines 157-228: the verification pass *)

Inductive console : Type :=
| log (message : string)
| error (message : string).

Definition field (fields : list string) (k : nat) : string :=
  default EmptyString (fields !! k).

(** Lines 167-203: the body of the loop over the lines, for line index
    [i]. *)
Definition check_line (i : nat) (line : string) : list console :=
  let fields := map trim (JS.split "|" (trim line)) in
  let n := Number_toString (Int (Z.of_nat i + 1)) in
  if negb (length fields =? 5)%nat then
    [error ("CSV line " +:+ n +:+ " does not have expected number of fields")]
  else
    (if isNaN (parseInt (field fields 0))
     then [error ("CSV line " +:+ n +:+ " has invalid id")] else []) ++
    (if negb (startsWith "http" (field fields 1))
     then [error ("CSV line " +:+ n +:+ " has invalid URL")] else []) ++
    (if (String.length (field fields 2) =? 0)%nat
     then [error ("CSV line " +:+ n +:+ " has empty headline")] else []) ++
    (if (String.length (field fields 3) =? 0)%nat
     then [error ("CSV line " +:+ n +:+ " has empty author")] else []) ++
    (if (String.length (field fields 4) =? 0)%nat
     then [error ("CSV line " +:+ n +:+ " has empty date")] else []).

(** The lines the loop visits: indices 1 to [csvLines.length - 2]. *)
Definition data_lines (csvLines : list string) : list (nat * string) :=
  map (fun i => (i, field csvLines i)) (seq 1 (length csvLines - 2)).

(** Lines 206-227: the count query on a fresh connection and its callback. *)
Definition check_database (table : option (list Row)) (s : VergeScraper)
  : list console :=
  match table with
  | None => [error "Error querying database:"]
  | Some rows =>
      let count := Z.of_nat (length rows) in
      let expected := Z.of_nat (length (headlines s)) in
      if negb (count =? expected) then
        [error ("Database contains " +:+ Number_toString (Int count) +:+
                " articles, expected " +:+ Number_toString (Int expected))]
      else [log "All tests passed!"]
  end.

(** Lines 157-228 of [runTests]: what is printed, given the contents of the
    file, the table in the store and the scraper. *)
Definition verify (csvData : string) (table : option (list Row))
    (s : VergeScraper) : list console :=
  let csvLines := JS.split "010" csvData in
  [log "Verifying articles in CSV file..."] ++
  if negb (String.eqb (trim (field csvLines 0))
             "id | URL | headline | author | date")
  then [error "CSV header does not match expected format"]
  else
    concat (map (fun il => check_line (fst il) (snd il)) (data_lines csvLines))
    ++ [log "Verifying articles in database..."]
    ++ check_database table s.

(** ** Notions used to state the properties *)

(** The scraper that holds the articles [data], in order, with counter
    [k]. *)
Definition batch_of (data : list ArticleData) (k : Z) : VergeScraper :=
  {| headlines := map headline data; authors := map author data;
     dates := map date data; urls := map url data; id := k |}.

Definition join (l : list string) : string :=
  fold_right String.append EmptyString l.

(** The rows [saveToCsv] writes for [data] when the first of them is handled
    by iteration [i] and the counter stands at [k]. *)
Definition csv_rows (years : nat -> Z) (i : nat) (k : Z)
    (data : list ArticleData) : string :=
  join (imap
          (fun j a =>
             line_of (k + Z.of_nat j + 1) (url a) (headline a) (author a)
               (dateFormatConversion (years (i + j)%nat) (date a)))
          data).

(** The file [saveToCsv] leaves behind. *)
Definition csv_file (w : VergeScraper * gmap string string * result unit)
  : option string :=
  snd (fst w) !! filename.

(** The four columns an insert binds. *)
Definition row_fields (r : Row)
  : option string * option string * option string * option string :=
  (row_url r, row_headline r, row_author r, row_date r).

(** The four values the statement of index [i] binds. *)
Definition bound_fields (s : VergeScraper) (i : nat)
  : option string * option string * option string * option string :=
  (urls s !! i, headlines s !! i, authors s !! i, dates s !! i).

(** The four values [saveToDatabase] binds for an article. *)
Definition article_fields (a : ArticleData)
  : option string * option string * option string * option string :=
  (Some (url a), Some (headline a), Some (author a), Some (date a)).

(** A line of the file without its newline. *)
Definition line_body (id : Z) (url headline author date : string) : string :=
  Number_toString (Int id) +:+ " | " +:+ url +:+ " | " +:+
  quote +:+ headline +:+ quote +:+ " | " +:+ author +:+ " | " +:+ date.

Definition not_bar (c : ascii) : bool := negb (Ascii.eqb c "|").
Definition not_newline (c : ascii) : bool := negb (Ascii.eqb c "010").
Definition not_space (c : ascii) : bool := negb (is_space c).

(** Neither the bar the reader splits fields on nor a newline. *)
Definition no_separator (s : string) : bool :=
  all_chars (fun c => not_bar c && not_newline c) s.

(** The characters a converted date is made of. *)
Definition is_date_char (c : ascii) : bool :=
  is_digit_or_minus c || Ascii.eqb c "/" || Ascii.eqb c "N" || Ascii.eqb c "a".

(** An article that passes the checks of the verification pass once
    written: the url begins with http, the author is not blank, and url,
    headline and author hold no bar and no newline. *)
Definition well_formed (a : ArticleData) : Prop :=
  no_separator (url a) = true /\
  no_separator (headline a) = true /\
  no_separator (author a) = true /\
  startsWith "http" (url a) = true /\
  trim (author a) <> EmptyString.

(** Reading the file back as [runTests] does: the lines after the first,
    up to the last newline, each split on the bar into trimmed fields. *)
Definition parse_back (csvData : string) : list (list string) :=
  map (fun il => map trim (JS.split "|" (trim (snd il))))
    (data_lines (JS.split "010" csvData)).

Definition not_digit (c : ascii) : bool := negb (is_digit c).

(** The value of the decimal digits [u] read after a prefix of value
    [acc]. *)
Fixpoint uint_value (acc : Z) (u : Decimal.uint) : Z :=
  match u with
  | Decimal.Nil => acc
  | Decimal.D0 u => uint_value (10 * acc) u
  | Decimal.D1 u => uint_value (10 * acc + 1) u
  | Decimal.D2 u => uint_value (10 * acc + 2) u
  | Decimal.D3 u => uint_value (10 * acc + 3) u
  | Decimal.D4 u => uint_value (10 * acc + 4) u
  | Decimal.D5 u => uint_value (10 * acc + 5) u
  | Decimal.D6 u => uint_value (10 * acc + 6) u
  | Decimal.D7 u => uint_value (10 * acc + 7) u
  | Decimal.D8 u => uint_value (10 * acc + 8) u
  | Decimal.D9 u => uint_value (10 * acc + 9) u
  end.

(** The month before month [m] (0-based) of [year]. *)
Definition preceding_month (year m : Z) : Z * Z :=
  if m =? 0 then (year - 1, 11) else (year, m - 1).

(** ** scraper.js, lines 46-88: [scrape] with the function run in the page *)

(** What the three queries of lines 61-64 find in one list item: the
    [innerHTML] of the first [a h3], the [href] of the first [a], and the
    [innerHTML] of every [p span], in document order.  [None] stands for
    the [null] a query returns when nothing matches. *)
Record ArticleElement : Type := {
  headlineElement : option string;
  urlElement : option string;
  spans : list string
}.

(** Lines 61-71: the body of [articles.forEach].  Reading a property of
    [null] or [undefined] throws a TypeError. *)
Definition extract_article (article : ArticleElement) : result ArticleData :=
  let authorElement := spans article !! 0%nat in
  let dateElement := spans article !! 1%nat in
  match headlineElement article with
  | None => Throws "TypeError"
  | Some headline =>
      match urlElement article with
      | None => Throws "TypeError"
      | Some url =>
          match authorElement with
          | None => Throws "TypeError"
          | Some author =>
              match dateElement with
              | None => Throws "TypeError"
              | Some date =>
                  Returns {| headline := trim headline; url := trim url;
                             author := trim author; date := trim date |}
              end
          end
      end
  end.

(** Lines 54-76: the loop over the list items, pushing onto [dataList];
    an exception ends it. *)
Fixpoint page_evaluate (articles : list ArticleElement)
    (dataList : list ArticleData) : result (list ArticleData) :=
  match articles with
  | [] => Returns dataList
  | article :: rest =>
      match extract_article article with
      | Throws e => Throws e
      | Returns a => page_evaluate rest (dataList ++ [a])
      end
  end.

(** [scrape] on a page whose list items are [articles]: when the function
    run in the page throws, the awaited call rejects and the rest of
    [scrape] is not run. *)
Definition scrape_page (articles : list ArticleElement) (s : VergeScraper)
  : VergeScraper * result unit :=
  match page_evaluate articles [] with
  | Throws e => (s, Throws e)
  | Returns data => (scrape data s, Returns tt)
  end.

(** The four arrays of the scraper have the same length. *)
Definition aligned (s : VergeScraper) : Prop :=
  length (authors s) = length (headlines s) /\
  length (dates s) = length (headlines s) /\
  length (urls s) = length (headlines s).

(** Number of occurrences of [c] in [s]. *)
Fixpoint count_char (c : ascii) (s : string) : nat :=
  match s with
  | EmptyString => 0
  | String b r => (if Ascii.eqb b c then 1 else 0) + count_char c r
  end.

(** A list item in which every query of lines 61-64 finds its element. *)
Definition complete (article : ArticleElement) : Prop :=
  is_Some (headlineElement article) /\
  is_Some (urlElement article) /\
  (2 <= length (spans article))%nat.

(** [a] holds the trimmed texts of [article]. *)
Definition extracted (article : ArticleElement) (a : ArticleData) : Prop :=
  trim <$> headlineElement article = Some (headline a) /\
  trim <$> urlElement article = Some (url a) /\
  trim <$> spans article !! 0%nat = Some (author a) /\
  trim <$> spans article !! 1%nat = Some (date a).

(** No white space at either end. *)
Definition trimmed (s : string) : Prop := trim s = s.

(** * Proofs *)

Example dateFormatConversion_mar14 :
  dateFormatConversion 2024 "Mar 14" = "2024/3/14".
Proof. vm_compute. reflexivity. Qed.

Example dateFormatConversion_feb30 :
  dateFormatConversion 2024 "Feb 30" = "2024/3/1".
Proof. vm_compute. reflexivity. Qed.

Example dateFormatConversion_nodate :
  dateFormatConversion 2024 "no date here" = "NaN/NaN/NaN".
Proof. vm_compute. reflexivity. Qed.

(** ** Calendar arithmetic *)

Module DateFacts.
Import Date.

Ltac div_lia := Z.to_euclidean_division_equations; lia.

Ltac unfold_bool :=
  repeat match goal with
    | |- context [if ?b then _ else _] =>
        let E := fresh "E" in destruct b eqn:E
    | H : context [if ?b then _ else _] |- _ =>
        let E := fresh "E" in destruct b eqn:E
    end.

Lemma DaysInYear_cases y : DaysInYear y = 365 \/ DaysInYear y = 366.
Proof. unfold DaysInYear. unfold_bool; auto. Qed.

Lemma InLeapYear_cases y : InLeapYear y = 0 \/ InLeapYear y = 1.
Proof. unfold InLeapYear. destruct (DaysInYear_cases y); lia. Qed.

Lemma DayFromYear_succ y : DayFromYear (y + 1) = DayFromYear y + DaysInYear y.
Proof.
  unfold DayFromYear, DaysInYear.
  unfold_bool; simpl in *; div_lia.
Qed.

Lemma DayFromYear_mono y y' : y <= y' -> DayFromYear y <= DayFromYear y'.
Proof. unfold DayFromYear. intros. div_lia. Qed.

Lemma YearFromDay_spec d :
  DayFromYear (YearFromDay d) <= d < DayFromYear (YearFromDay d + 1).
Proof.
  unfold YearFromDay.
  set (y := 1970 + 400 * d / 146097).
  assert (Hlo : DayFromYear (y - 1) <= d).
  { subst y. unfold DayFromYear. div_lia. }
  assert (Hhi : d < DayFromYear (y + 2)).
  { subst y. unfold DayFromYear. div_lia. }
  destruct (d <? DayFromYear y) eqn:E1.
  - replace (y - 1 + 1) with y by lia. lia.
  - destruct (DayFromYear (y + 1) <=? d) eqn:E2.
    + replace (y + 1 + 1) with (y + 2) by lia. lia.
    + lia.
Qed.

Lemma YearFromDay_unique y d :
  DayFromYear y <= d < DayFromYear (y + 1) -> YearFromDay d = y.
Proof.
  intros H. pose proof (YearFromDay_spec d) as S.
  destruct (Z.lt_trichotomy (YearFromDay d) y) as [L | [E | G]]; [ | exact E | ].
  - pose proof (DayFromYear_mono (YearFromDay d + 1) y ltac:(lia)). lia.
  - pose proof (DayFromYear_mono (y + 1) (YearFromDay d) ltac:(lia)). lia.
Qed.

Ltac month_cases m :=
  let C := fresh "C" in
  assert (m = 0 \/ m = 1 \/ m = 2 \/ m = 3 \/ m = 4 \/ m = 5 \/ m = 6 \/
          m = 7 \/ m = 8 \/ m = 9 \/ m = 10 \/ m = 11) as C by lia;
  repeat (destruct C as [C | C]); subst m.

(** Evaluates the month table at closed arguments. *)
Ltac eval_MonthStart :=
  repeat match goal with
    | H : context [MonthStart ?l ?m] |- _ =>
        let v := eval vm_compute in (MonthStart l m) in
        change (MonthStart l m) with v in H
    | |- context [MonthStart ?l ?m] =>
        let v := eval vm_compute in (MonthStart l m) in
        change (MonthStart l m) with v
    end.

Lemma DaysInMonth_cases y m :
  0 <= m <= 11 -> 28 <= DaysInMonth y m <= 31.
Proof.
  intros Hm. unfold DaysInMonth.
  destruct (InLeapYear_cases y) as [D | D]; rewrite D;
    month_cases m; vm_compute; split; discriminate.
Qed.

Lemma YearFromDay_dayNumber y m k :
  0 <= m <= 11 -> 1 <= k <= DaysInMonth y m ->
  YearFromDay (dayNumber y m k) = y.
Proof.
  intros Hm Hk. apply YearFromDay_unique. rewrite DayFromYear_succ.
  unfold dayNumber, DaysInMonth in *.
  replace (DaysInYear y) with (365 + InLeapYear y) by (unfold InLeapYear; lia).
  destruct (InLeapYear_cases y) as [D | D]; rewrite D in *;
    month_cases m; eval_MonthStart; lia.
Qed.

Lemma fields_of_dayNumber y m k :
  0 <= m <= 11 -> 1 <= k <= DaysInMonth y m ->
  YearFromDay (dayNumber y m k) = y /\
  MonthFromDay (dayNumber y m k) = m /\
  DateFromDay (dayNumber y m k) = k.
Proof.
  intros Hm Hk.
  pose proof (YearFromDay_dayNumber y m k Hm Hk) as HY.
  assert (HM : MonthFromDay (dayNumber y m k) = m).
  { unfold MonthFromDay, DayWithinYear. rewrite HY.
    unfold dayNumber, DaysInMonth in *.
    destruct (InLeapYear_cases y) as [D | D]; rewrite D in *;
      month_cases m; eval_MonthStart; unfold_bool; lia. }
  split; [exact HY | split; [exact HM | ]].
  unfold DateFromDay, DayWithinYear. rewrite HM, HY.
  unfold dayNumber. lia.
Qed.

End DateFacts.

(** ** Facts about the runtime pieces *)

Module JSFacts.

Lemma all_chars_app p s t :
  all_chars p (s +:+ t) = all_chars p s && all_chars p t.
Proof.
  induction s as [| c s IH]; simpl; [reflexivity | ].
  rewrite IH. apply andb_assoc.
Qed.

Lemma all_chars_impl (p q : ascii -> bool) s :
  (forall c, p c = true -> q c = true) ->
  all_chars p s = true -> all_chars q s = true.
Proof.
  intros Hpq. induction s as [| c s IH]; simpl; [reflexivity | ].
  rewrite !andb_true_iff. intros [Hc Hs]. auto.
Qed.

Lemma string_of_uint_digits u :
  all_chars is_digit (NilEmpty.string_of_uint u) = true.
Proof. induction u; simpl; auto. Qed.

Lemma to_uint_nzhead p :
  Decimal.nzhead (Pos.to_uint p) = Pos.to_uint p.
Proof.
  pose proof (Unsigned.to_of (Pos.to_uint p)) as H.
  rewrite Unsigned.of_to in H. simpl in H. unfold Decimal.unorm in H.
  destruct (Decimal.nzhead (Pos.to_uint p)) eqn:E; try (symmetry; exact H).
  exfalso. exact (Unsigned.to_uint_nonzero p H).
Qed.

(** The decimal rendering of a positive integer starts with a digit that
    is not zero. *)
Lemma Number_toString_pos z :
  0 < z ->
  exists c r, Number_toString (Int z) = String c r /\
              is_digit c = true /\ c <> "0"%char /\
              all_chars is_digit r = true.
Proof.
  intros Hz. destruct z as [| p | p]; try lia. simpl.
  pose proof (string_of_uint_digits (Pos.to_uint p)) as Hd.
  pose proof (to_uint_nzhead p) as Hn.
  pose proof (Unsigned.to_uint_nonnil p) as Hnil.
  destruct (Pos.to_uint p) as [| u | u | u | u | u | u | u | u | u | u] eqn:E;
    try congruence;
    try (simpl in *; eexists _, _; split; [reflexivity | ];
         split; [reflexivity | split; [discriminate | exact Hd]]).
  exfalso. exact (nzhead_nonzero _ _ Hn).
Qed.

Lemma Number_toString_int_chars z :
  all_chars is_digit_or_minus (Number_toString (Int z)) = true.
Proof.
  assert (H : forall u, all_chars is_digit_or_minus
                          (NilEmpty.string_of_uint u) = true).
  { intros u. apply (all_chars_impl is_digit); [ | apply string_of_uint_digits].
    intros c Hc. unfold is_digit_or_minus. rewrite Hc. reflexivity. }
  destruct z; simpl; auto.
Qed.

Lemma Number_toString_nonempty x : Number_toString x <> EmptyString.
Proof.
  destruct x as [| [| p | p]]; simpl; try discriminate.
  pose proof (Unsigned.to_uint_nonnil p).
  destruct (Pos.to_uint p); simpl; congruence.
Qed.

Lemma findIndex_range {A} (p : A -> bool) l :
  findIndex p l = -1 \/ 0 <= findIndex p l < Z.of_nat (length l).
Proof.
  induction l as [| x l IH]; simpl; [left; reflexivity | ].
  destruct (p x); [right; lia | ].
  destruct (findIndex p l =? -1) eqn:E; [left; reflexivity | right; lia].
Qed.

Lemma findIndex_lookup {A} (p : A -> bool) l k :
  findIndex p l = k -> 0 <= k ->
  exists x, l !! Z.to_nat k = Some x /\ p x = true.
Proof.
  revert k. induction l as [| x l IH]; simpl; intros k Hk Hpos; [lia | ].
  destruct (p x) eqn:Hx.
  - subst k. exists x. split; [reflexivity | exact Hx].
  - destruct (findIndex p l =? -1) eqn:E; [lia | ].
    destruct (IH (k - 1)) as (y & Hy & Hpy); [lia | | ].
    + pose proof (findIndex_range p l). lia.
    + exists y. split; [ | exact Hpy].
      replace (Z.to_nat k) with (S (Z.to_nat (k - 1))).
      * exact Hy.
      * pose proof (findIndex_range p l). lia.
Qed.

End JSFacts.

Import DateFacts JSFacts.

(** ** Strings: joining, splitting, trimming and reading numbers *)

Lemma append_assoc (a b c : string) : (a +:+ b) +:+ c = a +:+ (b +:+ c).
Proof. induction a as [| x a IH]; simpl; [reflexivity | now rewrite IH]. Qed.

Lemma append_empty_r (a : string) : a +:+ EmptyString = a.
Proof. induction a as [| x a IH]; simpl; [reflexivity | now rewrite IH]. Qed.

Lemma append_nonempty_r s t : t <> EmptyString -> s +:+ t <> EmptyString.
Proof. destruct s; simpl; [auto | discriminate]. Qed.

Lemma split_no_sep sep s :
  all_chars (fun c => negb (Ascii.eqb c sep)) s = true ->
  JS.split sep s = [s].
Proof.
  induction s as [| c s IH]; simpl; [reflexivity | ].
  intros H. apply andb_true_iff in H as [Hc Hs].
  apply negb_true_iff in Hc. rewrite Hc, (IH Hs). reflexivity.
Qed.

Lemma split_app sep s t :
  all_chars (fun c => negb (Ascii.eqb c sep)) s = true ->
  JS.split sep (s +:+ String sep t) = s :: JS.split sep t.
Proof.
  induction s as [| c s IH]; simpl.
  - intros _. rewrite Ascii.eqb_refl. reflexivity.
  - intros H. apply andb_true_iff in H as [Hc Hs].
    apply negb_true_iff in Hc. rewrite Hc, (IH Hs). reflexivity.
Qed.

Lemma trimEnd_cons c r :
  is_space c = false -> trimEnd (String c r) = String c (trimEnd r).
Proof.
  intros Hc. simpl. rewrite Hc. destruct (trimEnd r); reflexivity.
Qed.

Lemma trimEnd_nonspace t :
  all_chars not_space t = true -> trimEnd t = t.
Proof.
  induction t as [| c t IH]; [reflexivity | ].
  cbn [all_chars]. intros H. apply andb_true_iff in H as [Hc Ht].
  apply negb_true_iff in Hc. rewrite trimEnd_cons, (IH Ht) by exact Hc.
  reflexivity.
Qed.

Lemma trimEnd_app s t :
  trimEnd t <> EmptyString -> trimEnd (s +:+ t) = s +:+ trimEnd t.
Proof.
  intros Ht. induction s as [| c s IH]; [reflexivity | ].
  cbn [String.append trimEnd]. rewrite IH.
  pose proof (append_nonempty_r s _ Ht) as Hne.
  destruct (s +:+ trimEnd t); [congruence | reflexivity].
Qed.

Lemma trimEnd_app_space s c :
  is_space c = true -> trimEnd (s +:+ String c EmptyString) = trimEnd s.
Proof.
  intros Hc. induction s as [| a s IH].
  - simpl. rewrite Hc. reflexivity.
  - cbn [String.append trimEnd]. rewrite IH. reflexivity.
Qed.

Lemma trim_app_space s c :
  is_space c = true -> trim (s +:+ String c EmptyString) = trim s.
Proof.
  intros Hc. unfold trim. induction s as [| a s IH].
  - simpl. rewrite Hc. reflexivity.
  - cbn [String.append trimStart]. destruct (is_space a) eqn:Ha.
    + exact IH.
    + apply (trimEnd_app_space (String a s) c Hc).
Qed.

Lemma trim_cons_space s c : is_space c = true -> trim (String c s) = trim s.
Proof. intros Hc. unfold trim. simpl. rewrite Hc. reflexivity. Qed.

Lemma trimStart_cons c r :
  is_space c = false -> trimStart (String c r) = String c r.
Proof. intros Hc. simpl. rewrite Hc. reflexivity. Qed.

Lemma trim_nonspace s : all_chars not_space s = true -> trim s = s.
Proof.
  intros H. unfold trim.
  assert (E : trimStart s = s).
  { destruct s as [| c s]; [reflexivity | ].
    cbn [all_chars] in H. apply andb_true_iff in H as [Hc _].
    apply negb_true_iff in Hc. simpl. rewrite Hc. reflexivity. }
  rewrite E. apply trimEnd_nonspace. exact H.
Qed.

Lemma startsWith_trimEnd p s :
  all_chars not_space p = true ->
  startsWith p s = true -> startsWith p (trimEnd s) = true.
Proof.
  revert s. induction p as [| a p IH]; intros s Hp H; [reflexivity | ].
  destruct s as [| b s]; [discriminate | ].
  cbn [startsWith all_chars] in *.
  apply andb_true_iff in Hp as [Ha Hp]. apply andb_true_iff in H as [Hab H].
  apply Ascii.eqb_eq in Hab. subst b. apply negb_true_iff in Ha.
  rewrite trimEnd_cons by exact Ha. cbn [startsWith].
  rewrite Ascii.eqb_refl, (IH s Hp H). reflexivity.
Qed.

Lemma startsWith_trim p s :
  all_chars not_space p = true ->
  startsWith p s = true -> startsWith p (trim s) = true.
Proof.
  intros Hp H. unfold trim.
  destruct p as [| a p]; [reflexivity | ].
  destruct s as [| b s]; [discriminate | ].
  assert (Hb : is_space b = false).
  { cbn [startsWith all_chars] in *.
    apply andb_true_iff in Hp as [Ha _]. apply andb_true_iff in H as [Hab _].
    apply Ascii.eqb_eq in Hab. subst b. apply negb_true_iff in Ha. exact Ha. }
  rewrite trimStart_cons by exact Hb.
  apply startsWith_trimEnd; assumption.
Qed.

Lemma startsWith_zero_pos z :
  0 < z -> startsWith "0" (Number_toString (Int z)) = false.
Proof.
  intros Hz. destruct (Number_toString_pos z Hz) as (c & r & -> & _ & Hc & _).
  cbn [startsWith]. rewrite andb_true_r.
  apply Ascii.eqb_neq. congruence.
Qed.

(** Character classes. *)
Lemma digit_facts c :
  is_digit c = true ->
  is_space c = false /\ Ascii.eqb "-" c = false /\ Ascii.eqb "+" c = false /\
  (exists v, digit_value 10 c = Some v).
Proof.
  destruct c as [[] [] [] [] [] [] [] []]; vm_compute; intros H;
    try discriminate; repeat split; eauto.
Qed.

Lemma date_char_facts c :
  is_date_char c = true ->
  not_space c = true /\ not_bar c = true /\ not_newline c = true.
Proof.
  destruct c as [[] [] [] [] [] [] [] []]; vm_compute; intros H;
    try discriminate; repeat split.
Qed.

Lemma digit_or_minus_date_char c :
  is_digit_or_minus c = true -> is_date_char c = true.
Proof. intros H. unfold is_date_char. rewrite H. reflexivity. Qed.

Lemma lower_char_digit_or_minus c :
  is_digit_or_minus c = true -> lower_char c = c.
Proof.
  destruct c as [[] [] [] [] [] [] [] []]; vm_compute;
    intros; try reflexivity; discriminate.
Qed.

Lemma toLowerCase_app s t :
  toLowerCase (s +:+ t) = toLowerCase s +:+ toLowerCase t.
Proof. induction s as [| c s IH]; simpl; [reflexivity | now rewrite IH]. Qed.

Lemma toLowerCase_length s : String.length (toLowerCase s) = String.length s.
Proof. induction s as [| c s IH]; simpl; [reflexivity | now rewrite IH]. Qed.

Lemma toLowerCase_no_digit s :
  all_chars not_digit (toLowerCase s) = true -> all_chars not_digit s = true.
Proof.
  induction s as [| c s IH]; simpl; [reflexivity | ].
  rewrite !andb_true_iff. intros [Hc Hs]. split; [ | auto].
  unfold not_digit in *. apply negb_true_iff. apply negb_true_iff in Hc.
  destruct (is_digit c) eqn:E; [ | reflexivity].
  destruct c as [[] [] [] [] [] [] [] []]; vm_compute in E, Hc |- *;
    congruence.
Qed.

Lemma substr0_app x y : substr0 (String.length x) (x +:+ y) = x.
Proof.
  unfold substr0. induction x as [| c x IH]; simpl.
  - destruct y; reflexivity.
  - rewrite IH. reflexivity.
Qed.

Lemma match_digits_skip s t :
  all_chars not_digit s = true -> match_digits (s +:+ t) = match_digits t.
Proof.
  induction s as [| c s IH]; simpl; [reflexivity | ].
  rewrite andb_true_iff. intros [Hc Hs].
  apply negb_true_iff in Hc. rewrite Hc. auto.
Qed.

Lemma take_digits_all t : all_chars is_digit t = true -> take_digits t = t.
Proof.
  induction t as [| c t IH]; simpl; [reflexivity | ].
  rewrite andb_true_iff. intros [Hc Ht]. rewrite Hc, (IH Ht). reflexivity.
Qed.

Lemma parse_digits_uint a u :
  parse_digits 10 (Int a) (NilEmpty.string_of_uint u) = Int (uint_value a u).
Proof.
  revert a.
  induction u; intros a;
    cbn [NilEmpty.string_of_uint parse_digits uint_value]; try reflexivity;
    match goal with
    | |- context [digit_value 10 ?c] =>
        let v := eval vm_compute in (digit_value 10 c) in
        change (digit_value 10 c) with v
    end; cbn iota; rewrite IHu; f_equal; f_equal; lia.
Qed.

Lemma uint_value_of_uint_acc u acc :
  Z.pos (Pos.of_uint_acc u acc) = uint_value (Z.pos acc) u.
Proof.
  revert acc. induction u; intros acc; simpl; try reflexivity;
    rewrite IHu; f_equal; lia.
Qed.

Lemma uint_value_of_uint u : Z.of_N (Pos.of_uint u) = uint_value 0 u.
Proof.
  induction u; simpl; try reflexivity; try exact IHu;
    rewrite uint_value_of_uint_acc; reflexivity.
Qed.

Lemma uint_value_to_uint p : uint_value 0 (Pos.to_uint p) = Z.pos p.
Proof.
  rewrite <- uint_value_of_uint, Unsigned.of_to. reflexivity.
Qed.

(** [parseInt] reads the decimal form of a positive integer back. *)
Lemma parseInt_decimal z :
  0 < z -> parseInt (Number_toString (Int z)) = Int z.
Proof.
  intros Hz.
  destruct (Number_toString_pos z Hz) as (c & r & E & Hd & H0 & _).
  destruct (digit_facts c Hd) as (Hs & Hm & Hp & _).
  unfold parseInt. rewrite E, trimStart_cons by exact Hs.
  cbn [startsWith]. rewrite Hm, Hp. cbn [andb orb].
  assert (Ascii.eqb "0" c = false) as -> by (apply Ascii.eqb_neq; congruence).
  cbn [andb orb]. rewrite <- E.
  destruct z as [| p | p]; try lia.
  cbn [Number_toString Z.to_int NilEmpty.string_of_int].
  pose proof (Unsigned.to_uint_nonnil p) as Hnil.
  pose proof (uint_value_to_uint p) as Hv.
  destruct (Pos.to_uint p) as [| u | u | u | u | u | u | u | u | u | u];
    try congruence; cbn [NilEmpty.string_of_uint parse_digits];
    match goal with
    | |- context [digit_value 10 ?c] =>
        let v := eval vm_compute in (digit_value 10 c) in
        change (digit_value 10 c) with v
    end; cbn iota; rewrite parse_digits_uint; f_equal; exact Hv.
Qed.

Lemma Number_toString_int_head z :
  exists c r, Number_toString (Int z) = String c r /\
              is_digit_or_minus c = true.
Proof.
  pose proof (Number_toString_int_chars z) as H.
  pose proof (Number_toString_nonempty (Int z)) as Hne.
  destruct (Number_toString (Int z)) as [| c r]; [congruence | ].
  exists c, r. split; [reflexivity | ].
  simpl in H. apply andb_true_iff in H. tauto.
Qed.

Lemma Number_toString_date_chars x :
  all_chars is_date_char (Number_toString x) = true.
Proof.
  destruct x as [| z]; [reflexivity | ].
  apply (all_chars_impl is_digit_or_minus);
    [exact digit_or_minus_date_char | apply Number_toString_int_chars].
Qed.

(** ** The date helpers *)

Lemma getMonthIndex_findIndex input m :
  getMonthIndex input = Some m ->
  findIndex
    (fun n => String.eqb (toLowerCase n) (substr0 3 (toLowerCase input)))
    monthNames = m /\ m <> -1.
Proof.
  unfold getMonthIndex.
  set (k := findIndex _ monthNames).
  destruct (k =? -1) eqn:E; cbn [negb]; [discriminate | ].
  intros [= <-]. split; [reflexivity | lia].
Qed.

Lemma getMonthIndex_range input m :
  getMonthIndex input = Some m -> 0 <= m <= 11.
Proof.
  intros H. destruct (getMonthIndex_findIndex _ _ H) as [Hk Hne].
  match type of Hk with findIndex ?p ?l = _ =>
    pose proof (findIndex_range p l) as Hr end.
  rewrite Hk in Hr. change (Z.of_nat (length monthNames)) with 12 in Hr. lia.
Qed.

(** The month index is the position, in [monthNames], of the first three
    characters of the lower-cased input. *)
Lemma getMonthIndex_name input m :
  getMonthIndex input = Some m ->
  monthNames !! Z.to_nat m = Some (substr0 3 (toLowerCase input)).
Proof.
  intros H. pose proof (getMonthIndex_range _ _ H) as Hr.
  destruct (getMonthIndex_findIndex _ _ H) as [Hk Hne].
  destruct (findIndex_lookup _ _ m Hk ltac:(lia)) as (x & Hx & Hp).
  rewrite Hx. f_equal. apply String.eqb_eq in Hp.
  rewrite <- Hp. clear -Hx Hr.
  revert Hx. generalize (Z.to_nat m). intros n.
  do 12 (destruct n as [| n]; [intros [= <-]; reflexivity | ]).
  discriminate.
Qed.

Lemma month_name_head n s :
  monthNames !! n = Some s ->
  exists c r, s = String c r /\ is_digit_or_minus c = false /\ s <> "nan".
Proof.
  do 12 (destruct n as [| n];
         [intros [= <-]; eexists _, _;
          split; [reflexivity | split; [reflexivity | discriminate]] | ]).
  discriminate.
Qed.

Lemma month_name_no_digit m s :
  monthNames !! m = Some s -> all_chars not_digit s = true.
Proof.
  do 12 (destruct m as [| m]; [intros [= <-]; reflexivity | ]).
  discriminate.
Qed.

(** A three-letter token that lower-cases to the [m]-th name is
    recognised, whatever follows it. *)
Lemma getMonthIndex_token m name rest :
  monthNames !! m = Some (toLowerCase name) ->
  String.length name = 3%nat ->
  getMonthIndex (name +:+ rest) = Some (Z.of_nat m).
Proof.
  intros Hm Hlen. unfold getMonthIndex.
  rewrite toLowerCase_app.
  rewrite <- (toLowerCase_length name) in Hlen. rewrite <- Hlen, substr0_app.
  revert Hm.
  do 12 (destruct m as [| m]; [intros [= <-]; reflexivity | ]).
  discriminate.
Qed.

(** The first digit run of a digit-free text followed by the decimal form
    of a positive day is that decimal form. *)
Lemma getDate_after_text s d :
  all_chars not_digit s = true -> 0 < d ->
  getDate (s +:+ Number_toString (Int d)) = Some (Number_toString (Int d)).
Proof.
  intros Hs Hd. unfold getDate. rewrite (match_digits_skip s _ Hs).
  destruct (Number_toString_pos d Hd) as (c & r & -> & Hc & _ & Hr).
  simpl. rewrite Hc, (take_digits_all r Hr). reflexivity.
Qed.

Lemma DayFromYear_bounds year :
  100 <= year <= 275759 -> -700000 <= Date.DayFromYear year <= 99999400.
Proof.
  intros H.
  pose proof (DayFromYear_mono 100 year ltac:(lia)) as H1.
  pose proof (DayFromYear_mono year 275759 ltac:(lia)) as H2.
  change (Date.DayFromYear 100) with (-683003) in H1.
  change (Date.DayFromYear 275759) with 99999379 in H2. lia.
Qed.

Lemma MonthStart_bounds y m : 0 <= m <= 11 -> 0 <= Date.MonthStart (Date.InLeapYear y) m <= 335.
Proof.
  intros Hm. destruct (InLeapYear_cases y) as [D | D]; rewrite D;
    month_cases m; vm_compute; split; discriminate.
Qed.

(** [new Date(year, m, k)] holds day [dayNumber year m k] whenever that
    day is within the range of time values. *)
Lemma make_dayNumber year m k :
  100 <= year <= 275759 -> 0 <= m <= 11 ->
  Date.in_range (Date.dayNumber year m k) = true ->
  Date.make year (Int m) (Int k) = Int (Date.dayNumber year m k).
Proof.
  intros Hy Hm Hr. unfold Date.make, Date.MakeFullYear, Date.MakeDay.
  replace ((0 <=? year) && (year <=? 99)) with false
    by (symmetry; apply andb_false_iff; lia).
  replace (year + m / 12) with year by div_lia.
  replace (m mod 12) with m by div_lia.
  pose proof (DayFromYear_bounds year Hy).
  pose proof (MonthStart_bounds year m Hm).
  replace (Date.in_range (Date.DayFromYear year + Date.MonthStart (Date.InLeapYear year) m))
    with true by (symmetry; unfold Date.in_range, Date.maxDay; lia).
  fold (Date.dayNumber year m k). unfold Date.TimeClip. rewrite Hr. reflexivity.
Qed.

Lemma in_range_dayNumber year m k :
  100 <= year <= 275759 -> 0 <= m <= 11 -> 0 <= k <= 100 ->
  Date.in_range (Date.dayNumber year m k) = true.
Proof.
  intros Hy Hm Hk.
  pose proof (DayFromYear_bounds year Hy).
  pose proof (MonthStart_bounds year m Hm).
  unfold Date.in_range, Date.maxDay, Date.dayNumber. lia.
Qed.

(** The rendering of a date whose day number is known. *)
Lemma dateFormatConversion_dayNumber year input m ds k :
  100 <= year <= 275759 ->
  getMonthIndex input = Some m ->
  getDate input = Some ds ->
  parseInt ds = Int k ->
  Date.in_range (Date.dayNumber year m k) = true ->
  dateFormatConversion year input =
    Number_toString (Int (Date.YearFromDay (Date.dayNumber year m k))) +:+ "/" +:+
    Number_toString (Int (Date.MonthFromDay (Date.dayNumber year m k) + 1)) +:+ "/" +:+
    Number_toString (Int (Date.DateFromDay (Date.dayNumber year m k))).
Proof.
  intros Hy Hm Hd Hp Hr. unfold dateFormatConversion.
  rewrite Hm, Hd. simpl ToNumber. simpl ToString. rewrite Hp.
  rewrite make_dayNumber by eauto using getMonthIndex_range.
  reflexivity.
Qed.

Lemma dayNumber_following year m k :
  0 <= m <= 11 ->
  Date.dayNumber year m k =
  Date.dayNumber (fst (following_month year m)) (snd (following_month year m))
    (k - Date.DaysInMonth year m).
Proof.
  intros Hm. unfold following_month, Date.dayNumber, Date.DaysInMonth.
  destruct (m =? 11) eqn:E; simpl fst; simpl snd; [ | lia].
  assert (m = 11) as -> by lia.
  rewrite DayFromYear_succ.
  replace (Date.DaysInYear year) with (365 + Date.InLeapYear year)
    by (unfold Date.InLeapYear; lia).
  change (11 + 1) with 12.
  assert (Date.MonthStart (Date.InLeapYear (year + 1)) 0 = 0) as -> by reflexivity.
  assert (Date.MonthStart (Date.InLeapYear year) 12
          = 365 + Date.InLeapYear year) as -> by reflexivity.
  lia.
Qed.

Lemma following_month_range year m :
  0 <= m <= 11 -> 0 <= snd (following_month year m) <= 11.
Proof.
  intros Hm. unfold following_month.
  destruct (m =? 11) eqn:E; simpl; lia.
Qed.

(** Without a digit run or without a month token the date is invalid and
    every field reads NaN. *)
Lemma dateFormatConversion_NaN year input :
  getDate input = None \/ getMonthIndex input = None ->
  dateFormatConversion year input = "NaN/NaN/NaN".
Proof.
  intros H. unfold dateFormatConversion.
  assert (Hmake : Date.make year (ToNumber (getMonthIndex input))
                    (parseInt (ToString (getDate input))) = NaN).
  { destruct H as [H | H]; rewrite H.
    - change (parseInt (ToString None)) with NaN.
      unfold Date.make, Date.MakeDay.
      destruct (ToNumber (getMonthIndex input)); reflexivity.
    - reflexivity. }
  rewrite Hmake. reflexivity.
Qed.

(** The result is the literal NaN/NaN/NaN or three integers in decimal. *)
Lemma dateFormatConversion_shape year raw :
  dateFormatConversion year raw = "NaN/NaN/NaN" \/
  exists a b c,
    dateFormatConversion year raw =
      Number_toString (Int a) +:+ "/" +:+ Number_toString (Int b) +:+ "/"
      +:+ Number_toString (Int c).
Proof.
  unfold dateFormatConversion.
  destruct (Date.make year _ _) as [| d]; [left; reflexivity | right].
  eexists _, _, _. reflexivity.
Qed.

(** Only the text NaN/NaN/NaN is converted to itself. *)
Lemma dateFormatConversion_differs year raw :
  raw <> "NaN/NaN/NaN" -> dateFormatConversion year raw <> raw.
Proof.
  intros Hne Heq. destruct (getMonthIndex raw) as [m | ] eqn:Hm.
  - pose proof (getMonthIndex_name raw m Hm) as Hname.
    rewrite <- Heq in Hname.
    destruct (month_name_head _ _ Hname) as (c & r & Hs & Hc & Hnan).
    destruct (dateFormatConversion_shape year raw) as [E | (x & y & z & E)];
      rewrite E in Hs.
    + apply Hnan. rewrite E. reflexivity.
    + destruct (Number_toString_int_head x) as (c' & r' & Hx & Hc').
      rewrite Hx in Hs. cbn in Hs.
      rewrite (lower_char_digit_or_minus c' Hc') in Hs.
      injection Hs as Hcc _. congruence.
  - pose proof (dateFormatConversion_NaN year raw (or_intror Hm)) as H.
    congruence.
Qed.

Lemma dateFormatConversion_chars year raw :
  all_chars is_date_char (dateFormatConversion year raw) = true /\
  dateFormatConversion year raw <> EmptyString.
Proof.
  unfold dateFormatConversion. split.
  - rewrite !all_chars_app, !Number_toString_date_chars. reflexivity.
  - pose proof (Number_toString_nonempty
                  (Date.getFullYear
                     (Date.make year (ToNumber (getMonthIndex raw))
                        (parseInt (ToString (getDate raw)))))) as H.
    destruct (Number_toString _); [congruence | discriminate].
Qed.

(** ** The scraper's batch and the text sink *)

Lemma store_article_batch_of data k a :
  store_article (batch_of data k) a = batch_of (data ++ [a]) k.
Proof.
  unfold store_article, batch_of. simpl.
  rewrite !map_app. reflexivity.
Qed.

Lemma scrape_batch_of data2 data1 k :
  scrape data2 (batch_of data1 k) = batch_of (data1 ++ data2) k.
Proof.
  revert data1. induction data2 as [| a data2 IH]; intros data1; simpl.
  - rewrite app_nil_r. reflexivity.
  - unfold scrape in *. simpl. rewrite store_article_batch_of, IH.
    rewrite <- app_assoc. reflexivity.
Qed.

Lemma scrape_constructor data : scrape data constructor = batch_of data 0.
Proof. apply (scrape_batch_of data [] 0). Qed.

Lemma appendFile_insert file a b (fs : gmap string string) :
  appendFile file b (<[file := a]> fs) = <[file := a +:+ b]> fs.
Proof.
  unfold appendFile. rewrite lookup_insert_eq. simpl.
  apply insert_insert_eq.
Qed.

(** The loop, started at index [length pre] on a batch [pre ++ data] with
    the file holding [c], appends the rows of [data] and advances the
    counter once per row. *)
Lemma saveToCsv_loop_batch years data pre k c (fs : gmap string string) :
  saveToCsv_loop years (length data) (length pre)
    (batch_of (pre ++ data) k) (<[filename := c]> fs)
  = (batch_of (pre ++ data) (k + Z.of_nat (length data)),
     <[filename := c +:+ csv_rows years (length pre) k data]> fs,
     Returns tt).
Proof.
  revert pre k c. induction data as [| a data IH]; intros pre k c.
  - simpl. unfold csv_rows. simpl. rewrite append_empty_r.
    replace (k + Z.of_nat 0) with k by lia. reflexivity.
  - cbn [saveToCsv_loop length].
    assert (Hl : forall (f : ArticleData -> string),
               map f (pre ++ a :: data) !! length pre = Some (f a)).
    { intros f. rewrite list_lookup_fmap.
      rewrite lookup_app_r by lia.
      replace (length pre - length pre)%nat with 0%nat by lia. reflexivity. }
    cbn [batch_of dates urls headlines authors id].
    rewrite !Hl. cbn [dateFormatConversion_call ToString].
    rewrite appendFile_insert.
    change {| headlines := map headline (pre ++ a :: data);
              authors := map author (pre ++ a :: data);
              dates := map date (pre ++ a :: data);
              urls := map url (pre ++ a :: data);
              id := k + 1 |}
      with (batch_of (pre ++ a :: data) (k + 1)).
    replace (pre ++ a :: data) with ((pre ++ [a]) ++ data)
      by (rewrite <- app_assoc; reflexivity).
    replace (S (length pre)) with (length (pre ++ [a]))
      by (rewrite length_app; simpl; lia).
    rewrite IH.
    replace (k + 1 + Z.of_nat (length data))
      with (k + Z.of_nat (S (length data))) by lia.
    rewrite append_assoc.
    assert (E : csv_rows years (length pre) k (a :: data)
                = line_of (k + 1) (url a) (headline a) (author a)
                    (dateFormatConversion (years (length pre)) (date a))
                  +:+ csv_rows years (length (pre ++ [a])) (k + 1) data).
    { unfold csv_rows. rewrite imap_cons. cbn [join fold_right].
      replace (k + Z.of_nat 0 + 1) with (k + 1) by lia.
      replace (length pre + 0)%nat with (length pre) by lia.
      apply (f_equal (String.append _)). apply (f_equal join).
      apply imap_ext. intros j b _. unfold compose.
      rewrite length_app. cbn [length].
      replace (length pre + 1 + j)%nat with (length pre + S j)%nat by lia.
      replace (k + 1 + Z.of_nat j + 1) with (k + Z.of_nat (S j) + 1) by lia.
      reflexivity. }
    rewrite E. reflexivity.
Qed.

(** [saveToCsv] on a batch: whatever the file held, it ends up holding
    the header and the rows of the batch; other files are untouched. *)
Lemma saveToCsv_batch years data k (fs : gmap string string) :
  saveToCsv years (batch_of data k) fs
  = (batch_of data (k + Z.of_nat (length data)),
     <[filename := header +:+ csv_rows years 0 k data]> fs,
     Returns tt).
Proof.
  unfold saveToCsv, writeFile.
  cbn [batch_of headlines]. rewrite length_map.
  apply (saveToCsv_loop_batch years data [] k header fs).
Qed.

Lemma saveToCsv_loop_frame years n i s c (fs : gmap string string) :
  exists c',
    snd (fst (saveToCsv_loop years n i s (<[filename := c]> fs)))
    = <[filename := c']> fs.
Proof.
  revert i s c. induction n as [| n IH]; intros i s c.
  - exists c. reflexivity.
  - cbn [saveToCsv_loop].
    destruct (dateFormatConversion_call (years i) (dates s !! i)) as [d | e].
    + rewrite appendFile_insert. apply IH.
    + exists c. reflexivity.
Qed.

(** ** The row store *)

Lemma insert_all_loop data pre k t :
  exists rows,
    fold_left
      (fun t i =>
         insert_article (urls (batch_of (pre ++ data) k) !! i)
           (headlines (batch_of (pre ++ data) k) !! i)
           (authors (batch_of (pre ++ data) k) !! i)
           (dates (batch_of (pre ++ data) k) !! i) t)
      (seq (length pre) (length data)) t
    = t ++ rows
    /\ map row_fields rows = map article_fields data.
Proof.
  revert pre t. induction data as [| a data IH]; intros pre t.
  - exists []. simpl. rewrite app_nil_r. split; reflexivity.
  - cbn [length seq fold_left].
    assert (Hl : forall (f : ArticleData -> string),
               map f (pre ++ a :: data) !! length pre = Some (f a)).
    { intros f. rewrite list_lookup_fmap.
      rewrite lookup_app_r by lia.
      replace (length pre - length pre)%nat with 0%nat by lia. reflexivity. }
    cbn [batch_of urls headlines authors dates] in *.
    rewrite !Hl.
    specialize (IH (pre ++ [a])
                  (insert_article (Some (url a)) (Some (headline a))
                     (Some (author a)) (Some (date a)) t)).
    rewrite <- app_assoc in IH. cbn [app] in IH.
    rewrite length_app in IH. cbn [length] in IH.
    replace (length pre + 1)%nat with (S (length pre)) in IH by lia.
    destruct IH as (rows & -> & Hrows).
    unfold insert_article. rewrite <- app_assoc. cbn [app].
    eexists. split; [reflexivity | ].
    cbn [map]. rewrite Hrows. reflexivity.
Qed.

(** A run whose statements execute in index order appends one row per
    article of the batch, in order, to whatever the table held; it never
    looks at the rows already there. *)
Lemma persist_appends data k table :
  exists rows,
    persist (batch_of data k) table = Some (default [] table ++ rows)
    /\ map row_fields rows = map article_fields data.
Proof.
  unfold persist, saveToDatabase, open_database. cbn [is_open fst articles].
  unfold insert_all. cbn [batch_of headlines]. rewrite length_map.
  destruct (insert_all_loop data [] k (default [] table)) as (rows & E & H).
  exists rows. split; [ | exact H].
  f_equal. exact E.
Qed.

Lemma fold_max_snoc k ks m :
  fold_right Z.max k ks < m -> fold_right Z.max k (ks ++ [m]) = m.
Proof.
  induction ks as [| x ks IH]; simpl; intros H; [lia | ].
  rewrite IH by lia. lia.
Qed.

Lemma next_rowid_snoc t r :
  row_id r = next_rowid t -> next_rowid (t ++ [r]) = next_rowid t + 1.
Proof.
  unfold next_rowid. destruct t as [| r0 t]; cbn [app map].
  - intros ->. reflexivity.
  - intros E. rewrite map_app. cbn [map].
    rewrite (fold_max_snoc (row_id r0) (map row_id t) (row_id r)) by lia.
    lia.
Qed.

(** With room above the largest key the engine has no choice to make. *)
Lemma rowid_for_room pick t :
  next_rowid t <= maxRowid -> rowid_for pick t = Some (next_rowid t).
Proof.
  intros H. unfold rowid_for.
  destruct (Z.leb_spec (next_rowid t) maxRowid) as [_ | H']; [reflexivity | lia].
Qed.

(** The statements, run in the order [order], append one row per index of
    [order], in that order. *)
Lemma insert_scheduled_loop pick s order t :
  room (length order) t ->
  exists rows,
    insert_scheduled pick order s t = t ++ rows
    /\ map row_fields rows = map (bound_fields s) order.
Proof.
  unfold insert_scheduled, room.
  revert t. induction order as [| i order IH]; intros t Hroom.
  - exists []. cbn. rewrite app_nil_r. split; reflexivity.
  - cbn [length] in Hroom. cbn [fold_left]. unfold insert_row at 2.
    rewrite rowid_for_room by lia.
    set (r0 := {| row_id := next_rowid t; row_url := urls s !! i;
                  row_headline := headlines s !! i;
                  row_author := authors s !! i;
                  row_date := dates s !! i |}).
    destruct (IH (t ++ [r0])) as (rows & E & Hrows).
    { rewrite (next_rowid_snoc t r0 eq_refl). lia. }
    exists (r0 :: rows). rewrite E, <- app_assoc. split; [reflexivity | ].
    cbn [map]. rewrite Hrows. reflexivity.
Qed.

(** Whatever the order of the statements, a run keeps the rows the table
    held and adds, for every index, one row with the values bound at that
    index. *)
Lemma persist_scheduled_rows pick order s table :
  schedule s order ->
  room (length (headlines s)) (default [] table) ->
  exists rows,
    persist_scheduled pick order s table = Some (default [] table ++ rows)
    /\ map row_fields rows = map (bound_fields s) order
    /\ Permutation (map row_fields rows)
         (map (bound_fields s) (seq 0 (length (headlines s)))).
Proof.
  intros Hs Hroom.
  unfold persist_scheduled, saveToDatabase_scheduled, open_database.
  cbn [is_open fst articles].
  destruct (insert_scheduled_loop pick s order (default [] table))
    as (rows & -> & Hrows).
  { rewrite (Permutation_length Hs), length_seq. exact Hroom. }
  exists rows. split; [reflexivity | ]. split; [exact Hrows | ].
  rewrite Hrows. apply Permutation_map. exact Hs.
Qed.

(** The values bound for a batch are those of its articles. *)
Lemma bound_fields_batch data k :
  map (bound_fields (batch_of data k)) (seq 0 (length data))
  = map article_fields data.
Proof.
  apply list_eq. intros j.
  change (map (bound_fields (batch_of data k)) (seq 0 (length data)))
    with (bound_fields (batch_of data k) <$> seq 0 (length data)).
  change (map article_fields data) with (article_fields <$> data).
  rewrite !list_lookup_fmap.
  destruct (data !! j) as [a | ] eqn:Ej.
  - rewrite (lookup_seq_lt 0 (length data) j)
      by (apply lookup_lt_is_Some; eauto).
    cbn [fmap option_fmap option_map Nat.add].
    unfold bound_fields, article_fields.
    cbn [batch_of urls headlines authors dates].
    change (map ?f data) with (f <$> data).
    rewrite !list_lookup_fmap, Ej. reflexivity.
  - rewrite (lookup_seq_ge 0 (length data) j)
      by (apply lookup_ge_None; exact Ej).
    reflexivity.
Qed.

(** The run in index order is one of the scheduled runs. *)
Lemma persist_index_order pick s table :
  room (length (headlines s)) (default [] table) ->
  persist_scheduled pick (seq 0 (length (headlines s))) s table
  = persist s table.
Proof.
  unfold persist_scheduled, persist, saveToDatabase_scheduled, saveToDatabase,
    open_database, insert_scheduled, insert_all, room.
  cbn [is_open fst articles].
  generalize (default [] table) as t. generalize 0%nat as b.
  induction (length (headlines s)) as [| n IH]; intros b t Hroom;
    [reflexivity | ].
  cbn [seq fold_left]. unfold insert_row at 2.
  rewrite rowid_for_room by lia.
  change (t ++ [_]) with
    (insert_article (urls s !! b) (headlines s !! b) (authors s !! b)
       (dates s !! b) t).
  specialize (IH (S b)
                (insert_article (urls s !! b) (headlines s !! b)
                   (authors s !! b) (dates s !! b) t)).
  cbn [articles] in IH. apply IH.
  unfold insert_article. rewrite next_rowid_snoc by reflexivity. lia.
Qed.

(** ** Reading the text sink back *)

Lemma line_of_body z u h a d :
  line_of z u h a d = line_body z u h a d +:+ newline.
Proof. unfold line_of, line_body. rewrite !append_assoc. reflexivity. Qed.

(** The five stretches between the bars of a line. *)
Lemma line_body_bars z u h a d :
  line_body z u h a d =
    (Number_toString (Int z) +:+ " ") +:+
    String "|" ((" " +:+ u +:+ " ") +:+
    String "|" ((" " +:+ (quote +:+ h +:+ quote) +:+ " ") +:+
    String "|" ((" " +:+ a +:+ " ") +:+
    String "|" (" " +:+ d)))).
Proof. unfold line_body. rewrite !append_assoc. reflexivity. Qed.

Lemma no_separator_bar s :
  no_separator s = true -> all_chars not_bar s = true.
Proof.
  apply all_chars_impl. intros c H. apply andb_true_iff in H. tauto.
Qed.

Lemma no_separator_newline s :
  no_separator s = true -> all_chars not_newline s = true.
Proof.
  apply all_chars_impl. intros c H. apply andb_true_iff in H. tauto.
Qed.

Lemma date_chars_bar s :
  all_chars is_date_char s = true -> all_chars not_bar s = true.
Proof. apply all_chars_impl. intros c H. apply date_char_facts. exact H. Qed.

Lemma date_chars_newline s :
  all_chars is_date_char s = true -> all_chars not_newline s = true.
Proof. apply all_chars_impl. intros c H. apply date_char_facts. exact H. Qed.

Lemma date_chars_space s :
  all_chars is_date_char s = true -> all_chars not_space s = true.
Proof. apply all_chars_impl. intros c H. apply date_char_facts. exact H. Qed.

(** A line holds no newline when its fields hold none. *)
Lemma line_body_no_newline z u h a d :
  no_separator u = true -> no_separator h = true -> no_separator a = true ->
  all_chars is_date_char d = true ->
  all_chars not_newline (line_body z u h a d) = true.
Proof.
  intros Hu Hh Ha Hd. unfold line_body.
  rewrite !all_chars_app.
  rewrite (date_chars_newline _ (Number_toString_date_chars (Int z))).
  rewrite (no_separator_newline u Hu), (no_separator_newline h Hh).
  rewrite (no_separator_newline a Ha), (date_chars_newline d Hd).
  reflexivity.
Qed.

(** The fields the reader obtains from a line. *)
Lemma line_body_fields z u h a d :
  0 < z ->
  no_separator u = true -> no_separator h = true -> no_separator a = true ->
  all_chars is_date_char d = true -> d <> EmptyString ->
  map trim (JS.split "|" (trim (line_body z u h a d)))
  = [Number_toString (Int z); trim u; trim (quote +:+ h +:+ quote);
     trim a; d].
Proof.
  intros Hz Hu Hh Ha Hd Hne.
  assert (Htrim : trim (line_body z u h a d) = line_body z u h a d).
  { unfold trim.
    destruct (Number_toString_pos z Hz) as (c & r & E & Hc & _).
    destruct (digit_facts c Hc) as (Hs & _).
    assert (E1 : trimStart (line_body z u h a d) = line_body z u h a d).
    { unfold line_body. rewrite E. apply (trimStart_cons c _ Hs). }
    rewrite E1. unfold line_body.
    rewrite <- !append_assoc.
    pose proof (trimEnd_nonspace d (date_chars_space d Hd)) as Ed.
    rewrite trimEnd_app by (rewrite Ed; exact Hne).
    rewrite Ed. reflexivity. }
  rewrite Htrim, line_body_bars.
  rewrite !split_app, split_no_sep;
    try (match goal with
         | |- all_chars _ ?s = true => change (all_chars not_bar s = true)
         end;
         rewrite ?all_chars_app, ?(no_separator_bar _ Hu),
           ?(no_separator_bar _ Hh), ?(no_separator_bar _ Ha),
           ?(date_chars_bar _ Hd),
           ?(date_chars_bar _ (Number_toString_date_chars (Int z)));
         reflexivity).
  cbn [map].
  assert (E0 : trim (Number_toString (Int z) +:+ " ")
               = Number_toString (Int z)).
  { rewrite trim_app_space by reflexivity.
    apply trim_nonspace, date_chars_space, Number_toString_date_chars. }
  assert (Epad : forall x, trim (" " +:+ x +:+ " ") = trim x).
  { intros x. rewrite <- append_assoc, trim_app_space by reflexivity.
    apply trim_cons_space. reflexivity. }
  assert (E4 : trim (" " +:+ d) = d).
  { change (" " +:+ d) with (String " " d).
    rewrite (trim_cons_space d " ") by reflexivity.
    apply trim_nonspace, date_chars_space, Hd. }
  rewrite E0, !Epad, E4. reflexivity.
Qed.

Lemma split_lines bodies :
  Forall (fun b => all_chars not_newline b = true) bodies ->
  JS.split "010" (join (map (fun b => b +:+ newline) bodies))
  = bodies ++ [EmptyString].
Proof.
  induction 1 as [| b bodies Hb _ IH]; [reflexivity | ].
  cbn [map join fold_right]. rewrite append_assoc.
  change (newline +:+ ?x) with (String "010" x).
  rewrite (split_app "010" b _ Hb). fold (join (map (fun b => b +:+ newline) bodies)).
  rewrite IH. reflexivity.
Qed.

(** The loop of the verification pass visits all lines but the first and
    the last. *)
Lemma data_lines_middle first bodies last :
  map snd (data_lines (first :: bodies ++ [last])) = bodies.
Proof.
  unfold data_lines.
  replace (length (first :: bodies ++ [last]) - 2)%nat with (length bodies)
    by (cbn [length]; rewrite length_app; cbn [length]; lia).
  apply list_eq. intros i.
  change (map snd ?l) with (snd <$> l).
  change (map ?f ?l) with (f <$> l).
  rewrite !list_lookup_fmap.
  destruct (decide (i < length bodies)%nat) as [Hi | Hi].
  - rewrite lookup_seq_lt by exact Hi. cbn [fmap option_fmap option_map snd].
    unfold field.
    change ((first :: bodies ++ [last]) !! (1 + i)%nat)
      with ((bodies ++ [last]) !! i).
    rewrite lookup_app_l by exact Hi.
    destruct (lookup_lt_is_Some_2 bodies i Hi) as [b Hb].
    rewrite Hb. reflexivity.
  - rewrite lookup_seq_ge by lia. cbn.
    symmetry. apply lookup_ge_None. lia.
Qed.

(** The lines of the file a fresh scraper writes. *)
Lemma saveToCsv_lines years data (fs : gmap string string) :
  Forall well_formed data ->
  let bodies :=
    imap (fun j a =>
            line_body (Z.of_nat j + 1) (url a) (headline a) (author a)
              (dateFormatConversion (years j) (date a))) data in
  exists csvData,
    csv_file (saveToCsv years (scrape data constructor) fs) = Some csvData /\
    JS.split "010" csvData
    = "id | URL | headline | author | date" :: bodies ++ [EmptyString].
Proof.
  intros Hwf bodies.
  rewrite scrape_constructor, saveToCsv_batch.
  unfold csv_file. cbn [fst snd]. rewrite lookup_insert_eq.
  eexists. split; [reflexivity | ].
  assert (Hrows : csv_rows years 0 0 data
                  = join (map (fun b => b +:+ newline) bodies)).
  { unfold csv_rows, bodies. apply (f_equal join).
    change (map ?f ?l) with (f <$> l). rewrite fmap_imap.
    apply imap_ext. intros j a _. unfold compose.
    rewrite line_of_body. reflexivity. }
  rewrite Hrows. unfold header. rewrite append_assoc.
  change (newline +:+ ?x) with (String "010" x).
  rewrite split_app by reflexivity.
  rewrite split_lines; [reflexivity | ].
  apply Forall_lookup_2. intros j b Hb. unfold bodies in Hb.
  rewrite list_lookup_imap in Hb.
  destruct (data !! j) as [a | ] eqn:Ha; [ | discriminate].
  injection Hb as <-.
  destruct (proj1 (Forall_lookup _ _) Hwf j a Ha) as (Hu & Hh & Hau & _).
  apply line_body_no_newline; auto.
  apply dateFormatConversion_chars.
Qed.

(** ** The verification pass *)

Lemma check_line_short i line :
  length (map trim (JS.split "|" (trim line))) <> 5%nat ->
  check_line i line =
    [error ("CSV line " +:+ Number_toString (Int (Z.of_nat i + 1)) +:+
            " does not have expected number of fields")].
Proof.
  intros H. unfold check_line.
  destruct (Nat.eqb_spec (length (map trim (JS.split "|" (trim line)))) 5);
    [contradiction | reflexivity].
Qed.

Lemma check_line_five i line :
  length (map trim (JS.split "|" (trim line))) = 5%nat ->
  let fields := map trim (JS.split "|" (trim line)) in
  let n := Number_toString (Int (Z.of_nat i + 1)) in
  check_line i line =
    (if isNaN (parseInt (field fields 0))
     then [error ("CSV line " +:+ n +:+ " has invalid id")] else []) ++
    (if negb (startsWith "http" (field fields 1))
     then [error ("CSV line " +:+ n +:+ " has invalid URL")] else []) ++
    (if (String.length (field fields 2) =? 0)%nat
     then [error ("CSV line " +:+ n +:+ " has empty headline")] else []) ++
    (if (String.length (field fields 3) =? 0)%nat
     then [error ("CSV line " +:+ n +:+ " has empty author")] else []) ++
    (if (String.length (field fields 4) =? 0)%nat
     then [error ("CSV line " +:+ n +:+ " has empty date")] else []).
Proof.
  intros H. cbv zeta. unfold check_line. rewrite H. reflexivity.
Qed.

Lemma length_zero_empty s : (String.length s =? 0)%nat = true <-> s = EmptyString.
Proof. destruct s; simpl; split; intros; congruence. Qed.

(** What is printed for a data line is part of what [verify] prints, once
    the header is the expected one. *)
Lemma verify_includes_line csvData table s i line e :
  trim (field (JS.split "010" csvData) 0)
    = "id | URL | headline | author | date" ->
  In (i, line) (data_lines (JS.split "010" csvData)) ->
  In e (check_line i line) ->
  In e (verify csvData table s).
Proof.
  intros Hh Hin He. unfold verify. rewrite Hh, String.eqb_refl.
  cbn [negb]. rewrite !in_app_iff. right. left.
  apply in_concat. exists (check_line i line). split; [ | exact He].
  apply in_map_iff. exists (i, line). split; [reflexivity | exact Hin].
Qed.

Lemma verify_includes_database csvData table s e :
  trim (field (JS.split "010" csvData) 0)
    = "id | URL | headline | author | date" ->
  In e (check_database table s) ->
  In e (verify csvData table s).
Proof.
  intros Hh He. unfold verify. rewrite Hh, String.eqb_refl.
  cbn [negb]. rewrite !in_app_iff. right. right. right. exact He.
Qed.

Lemma message_neq n x y :
  x <> y -> error ("CSV line " +:+ n +:+ x) <> error ("CSV line " +:+ n +:+ y).
Proof.
  intros Hxy E. injection E as E.
  apply (String.app_inj n) in E. contradiction.
Qed.

Lemma In_if_singleton (b : bool) (x y : console) :
  In y (if b then [x] else []) <-> b = true /\ x = y.
Proof. destruct b; cbn [In]; intuition congruence. Qed.

(** * The claims *)

(** C1 fails on the code: the insert comment says the rows are
    de-duplicated by URL, but a second run on the same one-article batch
    adds a second row with the same URL. *)
Theorem persist_twice_duplicates :
  let a := {| headline := "A"; url := "https://x/1";
              author := "Bob"; date := "Jan 5" |} in
  let s := scrape [a] constructor in
  persist s None
    = Some [{| row_id := 1; row_url := Some "https://x/1";
               row_headline := Some "A"; row_author := Some "Bob";
               row_date := Some "Jan 5" |}]
  /\ persist s (persist s None)
    = Some [{| row_id := 1; row_url := Some "https://x/1";
               row_headline := Some "A"; row_author := Some "Bob";
               row_date := Some "Jan 5" |};
            {| row_id := 2; row_url := Some "https://x/1";
               row_headline := Some "A"; row_author := Some "Bob";
               row_date := Some "Jan 5" |}]
  /\ persist s (persist s None) <> persist s None.
Proof.
  cbv zeta. repeat split; try (vm_compute; reflexivity).
  vm_compute. discriminate.
Qed.

(** C2. For every input whose month token is recognised (index [m]) and
    whose first digit run reads as a day [d] between 1 and the length of
    that month in the year the clock shows, the result is the year, the
    month number [m + 1] and [d] in decimal, joined by slashes; the month
    and the day have no leading zero.  Such are all inputs made of a
    three-letter token that lower-cases to a month name, any digit-free
    text, and the day in decimal.  The two named examples hold. *)
Theorem dateFormatConversion_valid_date :
  (forall year input m ds d,
      100 <= year <= 275759 ->
      getMonthIndex input = Some m ->
      getDate input = Some ds ->
      parseInt ds = Int d ->
      1 <= d <= Date.DaysInMonth year m ->
      dateFormatConversion year input =
        Number_toString (Int year) +:+ "/" +:+
        Number_toString (Int (m + 1)) +:+ "/" +:+ Number_toString (Int d)
      /\ startsWith "0" (Number_toString (Int (m + 1))) = false
      /\ startsWith "0" (Number_toString (Int d)) = false)
  /\ (forall year (m : nat) token text d,
        100 <= year <= 275759 ->
        monthNames !! m = Some (toLowerCase token) ->
        String.length token = 3%nat ->
        all_chars not_digit text = true ->
        1 <= d <= Date.DaysInMonth year (Z.of_nat m) ->
        dateFormatConversion year
          (token +:+ text +:+ Number_toString (Int d)) =
          Number_toString (Int year) +:+ "/" +:+
          Number_toString (Int (Z.of_nat m + 1)) +:+ "/" +:+
          Number_toString (Int d))
  /\ dateFormatConversion 2024 "Mar 14" = "2024/3/14"
  /\ dateFormatConversion 2025 "january 1" = "2025/1/1".
Proof.
  assert (General : forall year input m ds d,
      100 <= year <= 275759 ->
      getMonthIndex input = Some m ->
      getDate input = Some ds ->
      parseInt ds = Int d ->
      1 <= d <= Date.DaysInMonth year m ->
      dateFormatConversion year input =
        Number_toString (Int year) +:+ "/" +:+
        Number_toString (Int (m + 1)) +:+ "/" +:+ Number_toString (Int d)).
  { intros year input m ds d Hy Hm Hd Hp Hk.
    pose proof (getMonthIndex_range _ _ Hm) as Hr.
    pose proof (DaysInMonth_cases year m Hr) as Hdim.
    rewrite (dateFormatConversion_dayNumber year input m ds d) by
      (try apply in_range_dayNumber; auto; lia).
    destruct (fields_of_dayNumber year m d Hr Hk) as (-> & -> & ->).
    reflexivity. }
  split; [ | split; [ | split; vm_compute; reflexivity]].
  - intros year input m ds d Hy Hm Hd Hp Hk.
    pose proof (getMonthIndex_range _ _ Hm) as Hr.
    split; [eapply General; eassumption | ].
    split; apply startsWith_zero_pos; lia.
  - intros year m token text d Hy Hm Hlen Htext Hk.
    assert (Htoken : all_chars not_digit token = true).
    { apply toLowerCase_no_digit. exact (month_name_no_digit _ _ Hm). }
    apply (General year _ (Z.of_nat m) (Number_toString (Int d)) d Hy).
    + apply getMonthIndex_token; assumption.
    + rewrite <- append_assoc. apply getDate_after_text; [ | lia].
      rewrite all_chars_app, Htoken, Htext. reflexivity.
    + apply parseInt_decimal. lia.
    + exact Hk.
Qed.

Lemma dateFormatConversion_valid_date_witness :
  (dateFormatConversion 2024 "Mar 14" =
     Number_toString (Int 2024) +:+ "/" +:+
     Number_toString (Int (2 + 1)) +:+ "/" +:+ Number_toString (Int 14)
   /\ startsWith "0" (Number_toString (Int (2 + 1))) = false
   /\ startsWith "0" (Number_toString (Int 14)) = false)
  /\ dateFormatConversion 2025
       ("jan" +:+ "uary " +:+ Number_toString (Int 1)) =
       Number_toString (Int 2025) +:+ "/" +:+
       Number_toString (Int (Z.of_nat 0 + 1)) +:+ "/" +:+
       Number_toString (Int 1).
Proof.
  split.
  - apply (proj1 dateFormatConversion_valid_date 2024 "Mar 14" 2 "14" 14).
    + lia.
    + reflexivity.
    + reflexivity.
    + reflexivity.
    + vm_compute. split; discriminate.
  - apply (proj1 (proj2 dateFormatConversion_valid_date)
             2025 0%nat "jan" "uary " 1).
    + lia.
    + reflexivity.
    + reflexivity.
    + reflexivity.
    + vm_compute. split; discriminate.
Defined.

(** C3, as the specification states it, fails: on an input with neither a
    digit run nor a month token the call returns a string. *)
Lemma dateFormatConversion_no_error :
  getDate "no date here" = None /\
  getMonthIndex "no date here" = None /\
  dateFormatConversion_call 2024 (Some "no date here")
    = Returns "NaN/NaN/NaN" /\
  ~ (exists e, dateFormatConversion_call 2024 (Some "no date here")
               = Throws e).
Proof.
  repeat split; try (vm_compute; reflexivity).
  intros [e He]. vm_compute in He. discriminate.
Qed.

(** C3, amended. For every input with no digit run or with no month token
    among the twelve names, the call returns the string NaN/NaN/NaN; it
    does not throw. *)
Theorem dateFormatConversion_malformed year input :
  getDate input = None \/ getMonthIndex input = None ->
  dateFormatConversion_call year (Some input) = Returns "NaN/NaN/NaN".
Proof.
  intros H. unfold dateFormatConversion_call.
  rewrite (dateFormatConversion_NaN year input H). reflexivity.
Qed.

Lemma dateFormatConversion_malformed_witness :
  dateFormatConversion_call 2024 (Some "no date here")
  = Returns "NaN/NaN/NaN".
Proof.
  apply (dateFormatConversion_malformed 2024 "no date here").
  left. reflexivity.
Defined.

(** C4, as the specification states it, fails for a record whose raw date
    is the text NaN/NaN/NaN: the text sink writes that same text, which is
    no year/month/day form, and both sinks hold the same string (a batch of
    one article has one statement, hence one order of execution). *)
Lemma sinks_same_date :
  let a := {| headline := "A"; url := "https://x/1";
              author := "Bob"; date := "NaN/NaN/NaN" |} in
  let s := scrape [a] constructor in
  persist s None
    = Some [{| row_id := 1; row_url := Some "https://x/1";
               row_headline := Some "A"; row_author := Some "Bob";
               row_date := Some "NaN/NaN/NaN" |}]
  /\ (forall pick,
        persist_scheduled pick [0%nat] s None
        = Some [{| row_id := 1; row_url := Some "https://x/1";
                   row_headline := Some "A"; row_author := Some "Bob";
                   row_date := Some "NaN/NaN/NaN" |}])
  /\ csv_file (saveToCsv (fun _ => 2024) s ∅)
    = Some (header +:+
            line_of 1 "https://x/1" "A" "Bob" "NaN/NaN/NaN")
  /\ dateFormatConversion 2024 (date a) = date a.
Proof. cbv zeta. repeat split; intros; vm_compute; reflexivity. Qed.

(** C4, amended. For the article [a] at position [i] of the batch:
    whatever the order in which the statements of the run execute, the row
    store keeps its rows and receives one row per article with the
    article's four values, so one of the new rows holds the link, the
    headline and the author of [a] with the raw date in the date column;
    the text sink receives, in the [i]-th of its lines, one per article,
    the result of [dateFormatConversion] on that date.  That result is the
    text NaN/NaN/NaN when the date has no digit run or no month token; it
    is the year of the clock, the month number and the day, in decimal and
    joined by slashes, when the month token is recognised and the day lies
    within that month; in every case it is the text NaN/NaN/NaN or three
    integers in decimal joined by slashes.  The two strings differ unless
    the raw date is the text NaN/NaN/NaN. *)
Theorem sinks_dates years data table (fs : gmap string string) i a :
  data !! i = Some a ->
  let s := scrape data constructor in
  let converted := dateFormatConversion (years i) (date a) in
  (forall pick order,
      schedule s order ->
      room (length data) (default [] table) ->
      exists rows r,
        persist_scheduled pick order s table
        = Some (default [] table ++ rows) /\
        Permutation (map row_fields rows) (map article_fields data) /\
        In r rows /\
        row_url r = Some (url a) /\ row_headline r = Some (headline a) /\
        row_author r = Some (author a) /\ row_date r = Some (date a))
  /\ (exists lines,
         csv_file (saveToCsv years s fs) = Some (header +:+ join lines) /\
         length lines = length data /\
         lines !! i =
           Some (line_of (Z.of_nat i + 1) (url a) (headline a) (author a)
                   converted))
  /\ (getDate (date a) = None \/ getMonthIndex (date a) = None ->
      converted = "NaN/NaN/NaN")
  /\ (forall m ds d,
        100 <= years i <= 275759 ->
        getMonthIndex (date a) = Some m ->
        getDate (date a) = Some ds ->
        parseInt ds = Int d ->
        1 <= d <= Date.DaysInMonth (years i) m ->
        converted =
          Number_toString (Int (years i)) +:+ "/" +:+
          Number_toString (Int (m + 1)) +:+ "/" +:+ Number_toString (Int d))
  /\ (converted = "NaN/NaN/NaN" \/
      exists y m d,
        converted =
          Number_toString (Int y) +:+ "/" +:+ Number_toString (Int m) +:+ "/"
          +:+ Number_toString (Int d))
  /\ (date a <> "NaN/NaN/NaN" -> converted <> date a).
Proof.
  intros Hi. cbv zeta. rewrite scrape_constructor.
  split; [ | split; [ | split; [ | split; [ | split]]]].
  - intros pick order Hs Hroom.
    assert (Hn : length (headlines (batch_of data 0)) = length data).
    { cbn [batch_of headlines]. apply length_map. }
    destruct (persist_scheduled_rows pick order (batch_of data 0) table Hs)
      as (rows & Hp & _ & Hperm).
    { rewrite Hn. exact Hroom. }
    rewrite Hn, bound_fields_batch in Hperm.
    assert (Hin : In (article_fields a) (map row_fields rows)).
    { apply (Permutation_in _ (Permutation_sym Hperm)).
      apply in_map. apply list_elem_of_In.
      apply list_elem_of_lookup. exists i. exact Hi. }
    apply in_map_iff in Hin as (r & Hr & Hin).
    exists rows, r. split; [exact Hp | ]. split; [exact Hperm | ].
    split; [exact Hin | ].
    unfold row_fields, article_fields in Hr.
    repeat split; congruence.
  - rewrite saveToCsv_batch. unfold csv_file. cbn [fst snd].
    rewrite lookup_insert_eq. unfold csv_rows.
    eexists. split; [reflexivity | ].
    split; [apply length_imap | ].
    rewrite list_lookup_imap, Hi. reflexivity.
  - apply dateFormatConversion_NaN.
  - intros m ds d Hy Hm Hd Hp Hk.
    pose proof (getMonthIndex_range _ _ Hm) as Hr.
    pose proof (DaysInMonth_cases (years i) m Hr) as Hdim.
    rewrite (dateFormatConversion_dayNumber (years i) (date a) m ds d) by
      (try apply in_range_dayNumber; auto; lia).
    destruct (fields_of_dayNumber (years i) m d Hr Hk) as (-> & -> & ->).
    reflexivity.
  - apply dateFormatConversion_shape.
  - apply dateFormatConversion_differs.
Qed.

Lemma sinks_dates_witness :
  let a := {| headline := "A"; url := "https://x/1";
              author := "Bob"; date := "Jan 5" |} in
  let b := {| headline := "B"; url := "https://x/2";
              author := "Eve"; date := "Feb 30" |} in
  let s := scrape [a; b] constructor in
  (exists rows r,
      persist_scheduled (fun _ => None) [1%nat; 0%nat] s None
      = Some (default [] None ++ rows) /\
      Permutation (map row_fields rows) (map article_fields [a; b]) /\
      In r rows /\
      row_url r = Some "https://x/1" /\ row_headline r = Some "A" /\
      row_author r = Some "Bob" /\ row_date r = Some "Jan 5")
  /\ (exists lines,
         csv_file (saveToCsv (fun _ => 2024) s ∅)
         = Some (header +:+ join lines) /\
         length lines = 2%nat /\
         lines !! 0%nat =
           Some (line_of (Z.of_nat 0 + 1) "https://x/1" "A" "Bob"
                   (dateFormatConversion 2024 "Jan 5")))
  /\ dateFormatConversion 2024 "Jan 5" =
       Number_toString (Int 2024) +:+ "/" +:+
       Number_toString (Int (0 + 1)) +:+ "/" +:+ Number_toString (Int 5)
  /\ dateFormatConversion 2024 "Jan 5" <> "Jan 5".
Proof.
  intros a b s.
  destruct (sinks_dates (fun _ => 2024) [a; b] None ∅ 0%nat a eq_refl)
    as (Hrows & Hlines & _ & Hvalid & _ & Hdiff).
  split; [ | split; [exact Hlines | split]].
  - apply (Hrows (fun _ => None) [1%nat; 0%nat]).
    + apply perm_swap.
    + vm_compute. discriminate.
  - apply (Hvalid 0 "5" 5).
    + lia.
    + reflexivity.
    + reflexivity.
    + reflexivity.
    + vm_compute. split; discriminate.
  - apply Hdiff. discriminate.
Defined.

(** C5. A fresh scraper holding [data] writes the header line and then,
    for the article at position [i] (from 0), the line with id [i + 1],
    the fields joined by space-bar-space, the headline between double
    quotes, and the converted date; the call returns normally. *)
Theorem saveToCsv_fresh years data (fs : gmap string string) :
  let w := saveToCsv years (scrape data constructor) fs in
  snd w = Returns tt /\
  csv_file w =
    Some ("id | URL | headline | author | date" +:+ newline +:+
          join (imap
                  (fun i a =>
                     Number_toString (Int (Z.of_nat i + 1)) +:+ " | " +:+
                     url a +:+ " | " +:+
                     quote +:+ headline a +:+ quote +:+ " | " +:+
                     author a +:+ " | " +:+
                     dateFormatConversion (years i) (date a) +:+ newline)
                  data)).
Proof.
  cbv zeta. rewrite scrape_constructor, saveToCsv_batch.
  split; [reflexivity | ].
  unfold csv_file. cbn [fst snd]. rewrite lookup_insert_eq.
  reflexivity.
Qed.

(** C6, as the specification states it, fails: day 60 of January exceeds
    the month by 29 days, more than February 2023 holds, and the result is
    the first of March, not a day of the following month. *)
Lemma dateFormatConversion_rolls_past_following_month :
  getMonthIndex "Jan 60" = Some 0 /\
  getDate "Jan 60" = Some "60" /\
  parseInt "60" = Int 60 /\
  Date.DaysInMonth 2023 0 < 60 /\
  following_month 2023 0 = (2023, 1) /\
  dateFormatConversion 2023 "Jan 60" = "2023/3/1" /\
  dateFormatConversion 2023 "Jan 60" <> "2023/2/29".
Proof.
  repeat split; try (vm_compute; reflexivity).
  vm_compute. discriminate.
Qed.

(** C6, amended. For every input whose day number exceeds the length of
    the matched month by no more than the length of the following month,
    the call does not fail: it returns the following month (January of the
    next year after December) and the excess as the day. *)
Theorem dateFormatConversion_rollover year input m ds d :
  100 <= year <= 275758 ->
  getMonthIndex input = Some m ->
  getDate input = Some ds ->
  parseInt ds = Int d ->
  Date.DaysInMonth year m < d ->
  d - Date.DaysInMonth year m
    <= Date.DaysInMonth (fst (following_month year m))
         (snd (following_month year m)) ->
  dateFormatConversion_call year (Some input) =
    Returns
      (Number_toString (Int (fst (following_month year m))) +:+ "/" +:+
       Number_toString (Int (snd (following_month year m) + 1)) +:+ "/" +:+
       Number_toString (Int (d - Date.DaysInMonth year m))).
Proof.
  intros Hy Hm Hd Hp Hlo Hhi.
  pose proof (getMonthIndex_range _ _ Hm) as Hr.
  pose proof (DaysInMonth_cases year m Hr) as Hdim.
  pose proof (following_month_range year m Hr) as Hr'.
  pose proof (DaysInMonth_cases (fst (following_month year m)) _ Hr') as Hdim'.
  unfold dateFormatConversion_call. f_equal.
  rewrite (dateFormatConversion_dayNumber year input m ds d) by
    (try apply in_range_dayNumber; auto; lia).
  rewrite (dayNumber_following year m d Hr).
  destruct (fields_of_dayNumber (fst (following_month year m))
              (snd (following_month year m))
              (d - Date.DaysInMonth year m) Hr' ltac:(lia)) as (-> & -> & ->).
  reflexivity.
Qed.

Lemma dateFormatConversion_rollover_witness :
  dateFormatConversion_call 2024 (Some "Feb 30") = Returns "2024/3/1".
Proof.
  apply (dateFormatConversion_rollover 2024 "Feb 30" 1 "30" 30).
  - lia.
  - reflexivity.
  - reflexivity.
  - reflexivity.
  - vm_compute. reflexivity.
  - vm_compute. discriminate.
Defined.

(** C7. Whatever a first call did, a second call on a scraper holding
    [data] leaves the file with the header followed by the rows of [data]
    only: the file system is the one the second call alone would have
    produced. *)
Theorem saveToCsv_overwrites years1 years2 s1 data k
    (fs : gmap string string) :
  let fs1 := snd (fst (saveToCsv years1 s1 fs)) in
  let w2 := saveToCsv years2 (batch_of data k) fs1 in
  csv_file w2 = Some (header +:+ csv_rows years2 0 k data) /\
  snd (fst w2) = snd (fst (saveToCsv years2 (batch_of data k) fs)).
Proof.
  cbv zeta. rewrite !saveToCsv_batch. unfold csv_file. cbn [fst snd].
  rewrite lookup_insert_eq. split; [reflexivity | ].
  unfold saveToCsv, writeFile.
  destruct (saveToCsv_loop_frame years1 (length (headlines s1)) 0 s1
              header fs) as [c' ->].
  apply insert_insert_eq.
Qed.

(** C8, as the specification states it, fails: an article whose fields
    hold no bar and no newline and whose date is parseable, but whose link
    is no http address and whose byline is empty, is read back as a row with
    an empty fourth field and a second field that does not begin with
    http. *)
Lemma roundtrip_needs_well_formed :
  let a := {| headline := "A"; url := "mailto:a@b.c";
              author := EmptyString; date := "Jan 5" |} in
  no_separator (url a) = true /\ no_separator (headline a) = true /\
  no_separator (author a) = true /\ no_separator (date a) = true /\
  dateFormatConversion 2024 (date a) = "2024/1/5" /\
  (exists csvData,
      csv_file (saveToCsv (fun _ => 2024) (scrape [a] constructor) ∅)
      = Some csvData /\
      parse_back csvData
      = [["1"; "mailto:a@b.c"; quote +:+ "A" +:+ quote; EmptyString;
          "2024/1/5"]]) /\
  startsWith "http" "mailto:a@b.c" = false.
Proof.
  cbv zeta. repeat split; try (vm_compute; reflexivity).
  eexists. split; vm_compute; reflexivity.
Qed.

(** C8, amended. Writing a batch of articles whose link begins with http,
    whose byline is not blank and whose link, headline and byline hold no
    bar and no newline (whatever their dates) with a fresh scraper, and
    reading the file back as the verification pass does, gives the expected
    header and one row per article; every row has exactly five fields, none
    of them empty, the first reads as an integer and the second begins with
    http. *)
Theorem text_sink_roundtrip years data (fs : gmap string string) :
  Forall well_formed data ->
  exists csvData,
    csv_file (saveToCsv years (scrape data constructor) fs) = Some csvData /\
    trim (field (JS.split "010" csvData) 0)
      = "id | URL | headline | author | date" /\
    length (parse_back csvData) = length data /\
    Forall (fun fields =>
              length fields = 5%nat /\
              Forall (fun f => f <> EmptyString) fields /\
              isNaN (parseInt (field fields 0)) = false /\
              startsWith "http" (field fields 1) = true)
      (parse_back csvData).
Proof.
  intros Hwf.
  destruct (saveToCsv_lines years data fs Hwf) as (csvData & Hfile & Hsplit).
  cbv zeta in Hsplit.
  exists csvData. split; [exact Hfile | ].
  assert (Hback :
    parse_back csvData
    = (fun b => map trim (JS.split "|" (trim b))) <$>
      imap (fun j a =>
              line_body (Z.of_nat j + 1) (url a) (headline a) (author a)
                (dateFormatConversion (years j) (date a))) data).
  { unfold parse_back. rewrite Hsplit.
    rewrite <- (map_map snd (fun b => map trim (JS.split "|" (trim b)))).
    rewrite data_lines_middle. reflexivity. }
  rewrite Hsplit, Hback. split; [reflexivity | ].
  split; [rewrite length_fmap, length_imap; reflexivity | ].
  apply Forall_lookup_2. intros j fields Hf.
  rewrite list_lookup_fmap, list_lookup_imap in Hf.
  destruct (data !! j) as [a | ] eqn:Ha; [ | discriminate].
  injection Hf as <-.
  destruct (proj1 (Forall_lookup _ _) Hwf j a Ha)
    as (Hu & Hh & Hau & Hhttp & Hauthor).
  destruct (dateFormatConversion_chars (years j) (date a)) as [Hd Hne].
  rewrite line_body_fields by (auto; lia).
  assert (Hurl : startsWith "http" (trim (url a)) = true)
    by (apply startsWith_trim; [reflexivity | exact Hhttp]).
  split; [reflexivity | ].
  split; [ | split].
  - repeat constructor.
    + apply Number_toString_nonempty.
    + intros E. rewrite E in Hurl. discriminate.
    + unfold trim. unfold quote. cbn [String.append].
      rewrite trimStart_cons by reflexivity.
      rewrite trimEnd_cons by reflexivity. discriminate.
    + exact Hauthor.
    + exact Hne.
  - change (isNaN (parseInt (Number_toString (Int (Z.of_nat j + 1))))
            = false).
    rewrite parseInt_decimal by lia. reflexivity.
  - exact Hurl.
Qed.

Lemma text_sink_roundtrip_witness :
  exists csvData,
    csv_file
      (saveToCsv (fun _ => 2024)
         (scrape [{| headline := "A"; url := "https://x/1";
                     author := "Bob"; date := "Jan 5" |}] constructor) ∅)
    = Some csvData /\
    trim (field (JS.split "010" csvData) 0)
      = "id | URL | headline | author | date" /\
    length (parse_back csvData) = 1%nat /\
    Forall (fun fields =>
              length fields = 5%nat /\
              Forall (fun f => f <> EmptyString) fields /\
              isNaN (parseInt (field fields 0)) = false /\
              startsWith "http" (field fields 1) = true)
      (parse_back csvData).
Proof.
  apply (text_sink_roundtrip (fun _ => 2024)
           [{| headline := "A"; url := "https://x/1";
               author := "Bob"; date := "Jan 5" |}] ∅).
  repeat constructor; vm_compute; discriminate.
Defined.

(** C9, as the specification states it, fails: with a wrong header the
    pass prints the header violation and returns; the violation in line 2
    and the failing query on the store are never reported. *)
Lemma verify_stops_at_header :
  let csvData := "wrong header" +:+ newline +:+ "x" +:+ newline in
  verify csvData None constructor
    = [log "Verifying articles in CSV file...";
       error "CSV header does not match expected format"]
  /\ data_lines (JS.split "010" csvData) = [(1%nat, "x")]
  /\ check_line 1 "x"
     = [error "CSV line 2 does not have expected number of fields"]
  /\ check_database None constructor = [error "Error querying database:"].
Proof. cbv zeta. repeat split; vm_compute; reflexivity. Qed.

(** C9, amended. Nothing is thrown: the pass returns what it printed.
    With a header other than the expected one, it prints that violation
    and nothing else.  With the expected header, what it prints is the
    report of every data line, in order, followed by the outcome of the
    count query on the store, whatever the lines were.  The report of a
    line that does not split into five fields is the message saying so and
    nothing else: its field checks are skipped.  The report of a line with
    five fields holds the message of each of the five field checks exactly
    when that check fails, whatever the other checks find, and does not
    hold the message about the number of fields. *)
Theorem verify_reports csvData table s :
  let csvLines := JS.split "010" csvData in
  let expected := "id | URL | headline | author | date" in
  (trim (field csvLines 0) <> expected ->
   verify csvData table s
   = [log "Verifying articles in CSV file...";
      error "CSV header does not match expected format"])
  /\ (trim (field csvLines 0) = expected ->
      verify csvData table s
      = [log "Verifying articles in CSV file..."]
        ++ concat (map (fun il => check_line (fst il) (snd il))
                     (data_lines csvLines))
        ++ [log "Verifying articles in database..."]
        ++ check_database table s)
  /\ (forall i line,
        let fields := map trim (JS.split "|" (trim line)) in
        let n := Number_toString (Int (Z.of_nat i + 1)) in
        (length fields <> 5%nat ->
         check_line i line
         = [error ("CSV line " +:+ n +:+
                   " does not have expected number of fields")])
        /\ (length fields = 5%nat ->
            (In (error ("CSV line " +:+ n +:+ " has invalid id"))
               (check_line i line)
             <-> isNaN (parseInt (field fields 0)) = true)
            /\ (In (error ("CSV line " +:+ n +:+ " has invalid URL"))
                  (check_line i line)
                <-> startsWith "http" (field fields 1) = false)
            /\ (In (error ("CSV line " +:+ n +:+ " has empty headline"))
                  (check_line i line)
                <-> field fields 2 = EmptyString)
            /\ (In (error ("CSV line " +:+ n +:+ " has empty author"))
                  (check_line i line)
                <-> field fields 3 = EmptyString)
            /\ (In (error ("CSV line " +:+ n +:+ " has empty date"))
                  (check_line i line)
                <-> field fields 4 = EmptyString)
            /\ ~ In (error ("CSV line " +:+ n +:+
                            " does not have expected number of fields"))
                   (check_line i line))).
Proof.
  cbv zeta. split; [ | split].
  - intros Hh. unfold verify.
    apply String.eqb_neq in Hh. rewrite Hh. reflexivity.
  - intros Hh. unfold verify. rewrite Hh, String.eqb_refl. reflexivity.
  - intros i line. split; [apply check_line_short | ].
    intros Hlen.
    pose proof (check_line_five i line Hlen) as E. cbv zeta in E.
    rewrite E. clear E.
    rewrite !in_app_iff, !In_if_singleton, negb_true_iff, !length_zero_empty.
    pose proof (message_neq (Number_toString (Int (Z.of_nat i + 1)))) as Hne.
    repeat split; try (intros H; tauto);
      intros H; repeat destruct H as [H | H]; destruct H as [H E];
      first [exact H | exfalso; revert E; apply Hne; discriminate].
Qed.

Lemma verify_reports_witness :
  let csvData := header +:+ "x | ftp://y |  |  | " +:+ newline
                 +:+ "1 | https://y | h" +:+ newline in
  verify csvData None constructor
  = [log "Verifying articles in CSV file..."]
    ++ concat (map (fun il => check_line (fst il) (snd il))
                 (data_lines (JS.split "010" csvData)))
    ++ [log "Verifying articles in database..."]
    ++ check_database None constructor
  /\ check_line 2 "1 | https://y | h"
     = [error ("CSV line " +:+ Number_toString (Int (Z.of_nat 2 + 1)) +:+
               " does not have expected number of fields")]
  /\ In (error ("CSV line " +:+ Number_toString (Int (Z.of_nat 1 + 1)) +:+
                " has invalid id"))
       (check_line 1 "x | ftp://y |  |  | ")
  /\ In (error ("CSV line " +:+ Number_toString (Int (Z.of_nat 1 + 1)) +:+
                " has invalid URL"))
       (check_line 1 "x | ftp://y |  |  | ").
Proof.
  intros csvData.
  destruct (verify_reports csvData None constructor) as (_ & Hreport & Hline).
  split; [exact (Hreport eq_refl) | ].
  split.
  - apply (proj1 (Hline 2%nat "1 | https://y | h")).
    vm_compute. discriminate.
  - destruct (proj2 (Hline 1%nat "x | ftp://y |  |  | ") eq_refl)
      as (Hid & Hurl & _).
    split; [apply (proj2 Hid) | apply (proj2 Hurl)]; reflexivity.
Defined.

(** C10. The counter is 0 at construction; a first write of [N] articles
    leaves it at [N]; a second write on the same scraper, then holding
    [M] articles, numbers its lines [N + 1] to [N + M] and leaves the
    counter at [N + M]. *)
Theorem id_never_reset years1 years2 data1 data2 (fs : gmap string string) :
  let w1 := saveToCsv years1 (scrape data1 constructor) fs in
  let s1 := fst (fst w1) in
  let w2 := saveToCsv years2 (scrape data2 s1) (snd (fst w1)) in
  let N := Z.of_nat (length data1) in
  let M := Z.of_nat (length (data1 ++ data2)) in
  id constructor = 0 /\
  id s1 = N /\
  id (fst (fst w2)) = N + M /\
  csv_file w2 =
    Some (header +:+
          join (imap
                  (fun j a =>
                     line_of (N + Z.of_nat j + 1) (url a) (headline a)
                       (author a)
                       (dateFormatConversion (years2 j) (date a)))
                  (data1 ++ data2))).
Proof.
  cbv zeta. rewrite scrape_constructor, saveToCsv_batch. cbn [fst snd].
  rewrite scrape_batch_of, saveToCsv_batch. cbn [fst snd batch_of id].
  unfold csv_file. cbn [fst snd]. rewrite lookup_insert_eq.
  repeat split; reflexivity.
Qed.

(** * Further properties of the code *)

(** ** The date helpers *)

Lemma take_digits_digits s : all_chars is_digit (take_digits s) = true.
Proof.
  induction s as [| c s IH]; simpl; [reflexivity | ].
  destruct (is_digit c) eqn:E; simpl; [rewrite E, IH | ]; reflexivity.
Qed.

Lemma take_digits_rest s :
  exists post, s = take_digits s +:+ post /\ take_digits post = EmptyString.
Proof.
  induction s as [| c s (post & E & H)]; simpl.
  - exists EmptyString. split; reflexivity.
  - destruct (is_digit c) eqn:Ec.
    + exists post. split; [simpl; rewrite <- E; reflexivity | exact H].
    + exists (String c s). split; [reflexivity | ]. simpl. rewrite Ec.
      reflexivity.
Qed.

Lemma take_digits_app ds post :
  all_chars is_digit ds = true ->
  take_digits (ds +:+ post) = ds +:+ take_digits post.
Proof.
  induction ds as [| c ds IH]; simpl; [reflexivity | ].
  rewrite andb_true_iff. intros [Hc Hds]. rewrite Hc, (IH Hds). reflexivity.
Qed.

(** X1. [getDate] returns the first maximal run of digits: the input is
    a digit-free text, then the run, which is not empty and all digits,
    then a rest that does not begin with a digit; it returns [undefined]
    exactly when the input holds no digit. *)
Theorem getDate_first_run str :
  match getDate str with
  | None => all_chars not_digit str = true
  | Some ds =>
      ds <> EmptyString /\ all_chars is_digit ds = true /\
      exists pre post,
        str = pre +:+ ds +:+ post /\
        all_chars not_digit pre = true /\
        take_digits post = EmptyString
  end.
Proof.
  unfold getDate. induction str as [| c str IH]; simpl; [reflexivity | ].
  destruct (is_digit c) eqn:Ec.
  - split; [discriminate | ]. split.
    + simpl. rewrite Ec. apply take_digits_digits.
    + destruct (take_digits_rest str) as (post & E & H).
      exists EmptyString, post. simpl. rewrite <- E. auto.
  - destruct (match_digits str) as [ds | ].
    + destruct IH as (Hne & Hd & pre & post & E & Hpre & Hpost).
      split; [exact Hne | ]. split; [exact Hd | ].
      exists (String c pre), post. simpl. rewrite <- E.
      unfold not_digit at 1. rewrite Ec. auto.
    + unfold not_digit at 1. rewrite Ec. exact IH.
Qed.

Lemma findIndex_none {A} (p : A -> bool) l :
  findIndex p l = -1 -> forall x, In x l -> p x = false.
Proof.
  induction l as [| y l IH]; simpl; [tauto | ].
  destruct (p y) eqn:Hy; [discriminate | ].
  destruct (findIndex p l =? -1) eqn:E.
  - intros _ x [<- | Hx]; [exact Hy | apply IH; [lia | exact Hx]].
  - pose proof (findIndex_range p l). lia.
Qed.

(** X2. [getMonthIndex] returns index [m] exactly when the [m]-th of the
    twelve names is the lower-cased input cut to three characters, and
    [undefined] exactly when no name is. *)
Theorem getMonthIndex_spec input :
  (forall m, getMonthIndex input = Some m <->
             0 <= m /\
             monthNames !! Z.to_nat m = Some (substr0 3 (toLowerCase input)))
  /\ (getMonthIndex input = None <->
      ~ In (substr0 3 (toLowerCase input)) monthNames).
Proof.
  assert (Hfound : forall n : nat,
             monthNames !! n = Some (substr0 3 (toLowerCase input)) ->
             getMonthIndex input = Some (Z.of_nat n)).
  { intros n. unfold getMonthIndex.
    generalize (substr0 3 (toLowerCase input)). intros x.
    do 12 (destruct n as [| n]; [intros [= <-]; reflexivity | ]).
    discriminate. }
  split.
  - intros m. split.
    + intros H. split; [apply (getMonthIndex_range _ _ H) | ].
      apply getMonthIndex_name. exact H.
    + intros [Hm Hn]. rewrite (Hfound _ Hn). f_equal. lia.
  - split.
    + intros H Hin. apply list_elem_of_In, list_elem_of_lookup in Hin.
      destruct Hin as [n Hn]. rewrite (Hfound _ Hn) in H. discriminate.
    + intros Hnot. destruct (getMonthIndex input) as [m | ] eqn:E;
        [ | reflexivity].
      exfalso. apply Hnot. apply list_elem_of_In, list_elem_of_lookup.
      exists (Z.to_nat m). apply getMonthIndex_name. exact E.
Qed.

Lemma lower_char_digit_space c :
  is_digit c = true \/ is_space c = true ->
  lower_char c = c.
Proof.
  destruct c as [[] [] [] [] [] [] [] []]; vm_compute;
    intros [H | H]; try reflexivity; discriminate.
Qed.

Lemma month_name_initial n c r :
  monthNames !! n = Some (String c r) ->
  is_digit c = false /\ is_space c = false.
Proof.
  do 12 (destruct n as [| n];
         [intros [= <- <-]; split; reflexivity | ]).
  discriminate.
Qed.

(** X3. The month is looked for at the very start of the input only: an
    input that begins with a digit or with white space, such as a date
    written day first, is converted to NaN/NaN/NaN whatever follows. *)
Theorem dateFormatConversion_month_first year c rest :
  is_digit c = true \/ is_space c = true ->
  getMonthIndex (String c rest) = None /\
  dateFormatConversion year (String c rest) = "NaN/NaN/NaN".
Proof.
  intros Hc.
  assert (Hm : getMonthIndex (String c rest) = None).
  { destruct (getMonthIndex (String c rest)) as [m | ] eqn:E; [ | reflexivity].
    exfalso. pose proof (getMonthIndex_name _ _ E) as Hn.
    cbn [toLowerCase] in Hn. rewrite (lower_char_digit_space c Hc) in Hn.
    unfold substr0 in Hn. cbn [substring] in Hn.
    destruct (month_name_initial _ _ _ Hn) as [Hd Hs].
    destruct Hc; congruence. }
  split; [exact Hm | ].
  apply dateFormatConversion_NaN. right. exact Hm.
Qed.

Lemma dateFormatConversion_month_first_witness :
  getMonthIndex "14 Mar" = None /\
  dateFormatConversion 2024 "14 Mar" = "NaN/NaN/NaN".
Proof.
  apply (dateFormatConversion_month_first 2024 "1" "4 Mar").
  left. reflexivity.
Defined.

Lemma digit_not_x c :
  is_digit c = true -> Ascii.eqb "x" c = false /\ Ascii.eqb "X" c = false.
Proof.
  destruct c as [[] [] [] [] [] [] [] []]; vm_compute; intros H;
    try discriminate; split; reflexivity.
Qed.

(** On a run of digits [parseInt] reads a decimal number: no sign, no
    hexadecimal prefix is found in it. *)
Lemma parseInt_digit_run c r :
  is_digit c = true -> all_chars is_digit r = true ->
  parseInt (String c r) = parse_digits 10 NaN (String c r).
Proof.
  intros Hc Hr. destruct (digit_facts c Hc) as (Hs & Hm & Hp & _).
  unfold parseInt. rewrite trimStart_cons by exact Hs.
  cbn [startsWith]. rewrite Hm, Hp. cbn [andb orb].
  destruct r as [| b r].
  - rewrite !andb_false_r. reflexivity.
  - cbn [all_chars] in Hr. apply andb_true_iff in Hr as [Hb _].
    destruct (digit_not_x b Hb) as [-> ->].
    rewrite !andb_false_r. reflexivity.
Qed.

Lemma parseInt_leading_zero ds :
  ds <> EmptyString -> all_chars is_digit ds = true ->
  parseInt (String "0" ds) = parseInt ds.
Proof.
  intros Hne Hd. destruct ds as [| c r]; [congruence | ].
  cbn [all_chars] in Hd. apply andb_true_iff in Hd as [Hc Hr].
  rewrite (parseInt_digit_run c r Hc Hr).
  rewrite (parseInt_digit_run "0" (String c r)) by
    (try reflexivity; cbn [all_chars]; rewrite Hc, Hr; reflexivity).
  destruct (digit_facts c Hc) as (_ & _ & _ & v & Hv).
  cbn [parse_digits].
  change (digit_value 10 "0") with (Some 0). cbv iota. rewrite Hv.
  reflexivity.
Qed.

Lemma substr0_prefix n p x :
  (n <= String.length p)%nat -> substr0 n (p +:+ x) = substr0 n p.
Proof.
  unfold substr0. revert n. induction p as [| c p IH]; intros n Hn.
  - simpl in Hn. assert (n = 0%nat) as -> by lia.
    simpl. destruct x; reflexivity.
  - destruct n as [| n]; [reflexivity | ].
    simpl in *. rewrite IH by lia. reflexivity.
Qed.

Lemma getMonthIndex_prefix pre x y :
  (3 <= String.length pre)%nat ->
  getMonthIndex (pre +:+ x) = getMonthIndex (pre +:+ y).
Proof.
  intros H. unfold getMonthIndex. rewrite !toLowerCase_app.
  rewrite !substr0_prefix by (rewrite toLowerCase_length; exact H).
  reflexivity.
Qed.

Lemma getDate_run pre ds post :
  all_chars not_digit pre = true ->
  ds <> EmptyString -> all_chars is_digit ds = true ->
  take_digits post = EmptyString ->
  getDate (pre +:+ ds +:+ post) = Some ds.
Proof.
  intros Hpre Hne Hd Hpost. unfold getDate.
  rewrite (match_digits_skip pre _ Hpre).
  destruct ds as [| c r]; [congruence | ].
  cbn [all_chars] in Hd. apply andb_true_iff in Hd as [Hc Hr].
  cbn [String.append match_digits]. rewrite Hc.
  rewrite (take_digits_app r post Hr), Hpost, append_empty_r. reflexivity.
Qed.

(** X4. A day written with a leading zero is read like the day without
    it: after a digit-free text of three characters or more, putting a 0
    in front of the digit run does not change the result. *)
Theorem dateFormatConversion_zero_padded year pre ds post :
  (3 <= String.length pre)%nat ->
  all_chars not_digit pre = true ->
  ds <> EmptyString -> all_chars is_digit ds = true ->
  take_digits post = EmptyString ->
  dateFormatConversion year (pre +:+ String "0" ds +:+ post)
  = dateFormatConversion year (pre +:+ ds +:+ post).
Proof.
  intros Hlen Hpre Hne Hd Hpost. unfold dateFormatConversion.
  rewrite (getMonthIndex_prefix pre (String "0" ds +:+ post) (ds +:+ post))
    by exact Hlen.
  rewrite (getDate_run pre (String "0" ds) post) by
    (try assumption; try discriminate; cbn [all_chars]; rewrite Hd;
     reflexivity).
  rewrite (getDate_run pre ds post) by assumption.
  cbn [ToString]. rewrite (parseInt_leading_zero ds Hne Hd). reflexivity.
Qed.

Lemma dateFormatConversion_zero_padded_witness :
  dateFormatConversion 2024 ("Mar " +:+ String "0" "5" +:+ ", 9am")
  = dateFormatConversion 2024 ("Mar " +:+ "5" +:+ ", 9am").
Proof.
  apply (dateFormatConversion_zero_padded 2024 "Mar " "5" ", 9am").
  - simpl. lia.
  - reflexivity.
  - discriminate.
  - reflexivity.
  - reflexivity.
Defined.

Lemma in_range_far t d :
  Date.in_range t = true -> 200000001 < d ->
  Date.in_range (t + d - 1) = false.
Proof.
  intros Ht Hbig. apply Z.leb_gt. apply Z.leb_le in Ht.
  change Date.maxDay with 100000000 in *. lia.
Qed.

Lemma make_out_of_range year month d :
  200000001 < d -> Date.make year month (Int d) = NaN.
Proof.
  intros Hbig. unfold Date.make, Date.MakeDay.
  destruct month as [| m]; [reflexivity | ].
  generalize (Date.DayFromYear (Date.MakeFullYear year + m / 12) +
              Date.MonthStart
                (Date.InLeapYear (Date.MakeFullYear year + m / 12))
                (m mod 12)).
  intros t. destruct (Date.in_range t) eqn:Ht; [ | reflexivity].
  unfold Date.TimeClip. rewrite (in_range_far t d Ht Hbig). reflexivity.
Qed.

(** X5. A day number beyond the reach of Date values does not roll over:
    whenever the first digit run reads as more than 200,000,001 the result
    is NaN/NaN/NaN, whatever the month and the year. *)
Theorem dateFormatConversion_day_out_of_range year input ds d :
  getDate input = Some ds ->
  parseInt ds = Int d ->
  200000001 < d ->
  dateFormatConversion year input = "NaN/NaN/NaN".
Proof.
  intros Hd Hp Hbig. unfold dateFormatConversion.
  rewrite Hd. cbn [ToString]. rewrite Hp.
  rewrite (make_out_of_range year _ d Hbig). reflexivity.
Qed.

Lemma dateFormatConversion_day_out_of_range_witness :
  dateFormatConversion 2024 "Mar 999999999" = "NaN/NaN/NaN".
Proof.
  apply (dateFormatConversion_day_out_of_range 2024 "Mar 999999999"
           "999999999" 999999999).
  - reflexivity.
  - reflexivity.
  - lia.
Defined.

Lemma dayNumber_preceding year m :
  0 <= m <= 11 ->
  Date.dayNumber year m 0 =
  Date.dayNumber (fst (preceding_month year m)) (snd (preceding_month year m))
    (Date.DaysInMonth (fst (preceding_month year m))
       (snd (preceding_month year m))).
Proof.
  intros Hm. unfold preceding_month, Date.dayNumber, Date.DaysInMonth.
  destruct (m =? 0) eqn:E; simpl fst; simpl snd.
  - assert (m = 0) as -> by lia.
    pose proof (DayFromYear_succ (year - 1)) as H.
    replace (year - 1 + 1) with year in H by lia.
    replace (Date.DaysInYear (year - 1))
      with (365 + Date.InLeapYear (year - 1)) in H
      by (unfold Date.InLeapYear; lia).
    change (11 + 1) with 12.
    assert (Date.MonthStart (Date.InLeapYear year) 0 = 0) as -> by reflexivity.
    assert (Date.MonthStart (Date.InLeapYear (year - 1)) 12
            = 365 + Date.InLeapYear (year - 1)) as -> by reflexivity.
    lia.
  - replace (m - 1 + 1) with m by lia. lia.
Qed.

(** X6. Day 0 is the day before the first of the month: when the digit
    run reads as 0 the result is the last day of the preceding month
    (of December of the year before, for January). *)
Theorem dateFormatConversion_day_zero year input m ds :
  101 <= year <= 275759 ->
  getMonthIndex input = Some m ->
  getDate input = Some ds ->
  parseInt ds = Int 0 ->
  dateFormatConversion year input =
    Number_toString (Int (fst (preceding_month year m))) +:+ "/" +:+
    Number_toString (Int (snd (preceding_month year m) + 1)) +:+ "/" +:+
    Number_toString
      (Int (Date.DaysInMonth (fst (preceding_month year m))
              (snd (preceding_month year m)))).
Proof.
  intros Hy Hm Hd Hp.
  pose proof (getMonthIndex_range _ _ Hm) as Hr.
  assert (Hr' : 0 <= snd (preceding_month year m) <= 11).
  { unfold preceding_month. destruct (m =? 0) eqn:E; simpl; lia. }
  pose proof (DaysInMonth_cases (fst (preceding_month year m)) _ Hr') as Hdim.
  rewrite (dateFormatConversion_dayNumber year input m ds 0) by
    (try apply in_range_dayNumber; auto; lia).
  rewrite (dayNumber_preceding year m Hr).
  destruct (fields_of_dayNumber (fst (preceding_month year m))
              (snd (preceding_month year m))
              (Date.DaysInMonth (fst (preceding_month year m))
                 (snd (preceding_month year m))) Hr' ltac:(lia))
    as (-> & -> & ->).
  reflexivity.
Qed.

Lemma dateFormatConversion_day_zero_witness :
  dateFormatConversion 2024 "Mar 0" = "2024/2/29".
Proof.
  apply (dateFormatConversion_day_zero 2024 "Mar 0" 2 "0").
  - lia.
  - reflexivity.
  - reflexivity.
  - reflexivity.
Defined.

(** ** [scrape] and the function run in the page *)

Lemma trimEnd_idempotent s : trimEnd (trimEnd s) = trimEnd s.
Proof.
  induction s as [| c s IH]; [reflexivity | ].
  cbn [trimEnd]. destruct (trimEnd s) as [| b r] eqn:E.
  - destruct (is_space c) eqn:Hc; [reflexivity | ].
    cbn [trimEnd]. rewrite Hc. reflexivity.
  - change (trimEnd (String c (String b r)))
      with (match trimEnd (String b r) with
            | EmptyString =>
                if is_space c then EmptyString else String c EmptyString
            | String b' r' => String c (String b' r')
            end).
    rewrite IH. reflexivity.
Qed.

Lemma trimStart_head s :
  trimStart s = EmptyString \/
  exists c r, trimStart s = String c r /\ is_space c = false.
Proof.
  induction s as [| c s IH]; [left; reflexivity | ].
  simpl. destruct (is_space c) eqn:Hc; [exact IH | right; eauto].
Qed.

Lemma trim_idempotent s : trim (trim s) = trim s.
Proof.
  unfold trim. destruct (trimStart_head s) as [-> | (c & r & -> & Hc)];
    [reflexivity | ].
  rewrite (trimEnd_cons c r Hc), (trimStart_cons c _ Hc).
  rewrite <- (trimEnd_cons c r Hc). apply trimEnd_idempotent.
Qed.

Lemma extract_article_complete article :
  complete article ->
  exists a, extract_article article = Returns a /\ extracted article a /\
            trimmed (headline a) /\ trimmed (url a) /\
            trimmed (author a) /\ trimmed (date a).
Proof.
  intros ([h Hh] & [u Hu] & Hlen). unfold extract_article, extracted.
  rewrite Hh, Hu.
  destruct (spans article) as [| au [| d rest]]; simpl in Hlen; try lia.
  eexists. split; [reflexivity | ].
  cbn. repeat split; apply trim_idempotent.
Qed.

Lemma extract_article_incomplete article :
  ~ complete article -> extract_article article = Throws "TypeError".
Proof.
  intros H. unfold extract_article.
  destruct (headlineElement article) as [h | ] eqn:Hh; [ | reflexivity].
  destruct (urlElement article) as [u | ] eqn:Hu; [ | reflexivity].
  destruct (spans article) as [| au [| d rest]] eqn:Hs; try reflexivity.
  exfalso. apply H. unfold complete. rewrite Hh, Hu, Hs.
  repeat split; eauto. simpl. lia.
Qed.

Lemma extract_article_throws article e :
  extract_article article = Throws e -> e = "TypeError".
Proof.
  unfold extract_article.
  destruct (headlineElement article); [ | congruence].
  destruct (urlElement article); [ | congruence].
  destruct (spans article !! 0%nat); [ | congruence].
  destruct (spans article !! 1%nat); congruence.
Qed.

Lemma page_evaluate_complete articles acc :
  Forall complete articles ->
  exists data,
    page_evaluate articles acc = Returns (acc ++ data) /\
    Forall2 extracted articles data /\
    Forall (fun a => trimmed (headline a) /\ trimmed (url a) /\
                     trimmed (author a) /\ trimmed (date a)) data.
Proof.
  intros H. revert acc. induction H as [| art articles Hart _ IH]; intros acc.
  - exists []. simpl. rewrite app_nil_r. auto.
  - destruct (extract_article_complete art Hart) as (a & Ea & Hex & Htr).
    destruct (IH (acc ++ [a])) as (data & E & H2 & Hall).
    exists (a :: data). cbn [page_evaluate]. rewrite Ea, E.
    rewrite <- app_assoc. auto.
Qed.

Lemma page_evaluate_incomplete articles acc :
  Exists (fun article => ~ complete article) articles ->
  page_evaluate articles acc = Throws "TypeError".
Proof.
  intros H. revert acc. induction H as [art rest Hart | art rest _ IH];
    intros acc; cbn [page_evaluate].
  - rewrite (extract_article_incomplete art Hart). reflexivity.
  - destruct (extract_article art) as [a | e] eqn:E; [apply IH | ].
    rewrite (extract_article_throws art e E). reflexivity.
Qed.

Lemma scrape_fields data s :
  headlines (scrape data s) = headlines s ++ map headline data /\
  authors (scrape data s) = authors s ++ map author data /\
  dates (scrape data s) = dates s ++ map date data /\
  urls (scrape data s) = urls s ++ map url data /\
  id (scrape data s) = id s.
Proof.
  revert s. induction data as [| a data IH]; intros s.
  - simpl. rewrite !app_nil_r. auto.
  - unfold scrape in *. cbn [fold_left map].
    destruct (IH (store_article s a)) as (-> & -> & -> & -> & ->).
    cbn [store_article headlines authors dates urls id].
    rewrite <- !app_assoc. auto.
Qed.

(** X7. When every list item of the page has its headline, its link and
    two spans, [scrape] returns normally and appends, to each of the four
    arrays and in document order, the texts of the items with the white
    space at both ends removed; what the scraper held before stays in
    front, and the counter is not touched. *)
Theorem scrape_page_complete articles s :
  Forall complete articles ->
  exists data,
    snd (scrape_page articles s) = Returns tt /\
    Forall2 extracted articles data /\
    Forall (fun a => trimmed (headline a) /\ trimmed (url a) /\
                     trimmed (author a) /\ trimmed (date a)) data /\
    headlines (fst (scrape_page articles s))
      = headlines s ++ map headline data /\
    authors (fst (scrape_page articles s)) = authors s ++ map author data /\
    dates (fst (scrape_page articles s)) = dates s ++ map date data /\
    urls (fst (scrape_page articles s)) = urls s ++ map url data /\
    id (fst (scrape_page articles s)) = id s.
Proof.
  intros H. destruct (page_evaluate_complete articles [] H)
    as (data & E & H2 & Htr).
  exists data. unfold scrape_page. rewrite E. cbn [app fst snd].
  split; [reflexivity | ]. split; [exact H2 | ]. split; [exact Htr | ].
  apply scrape_fields.
Qed.

Lemma scrape_page_complete_witness :
  let article := {| headlineElement := Some " A "; urlElement := Some "u";
                    spans := ["Bob"; "Jan 5 "] |} in
  exists data,
    snd (scrape_page [article] constructor) = Returns tt /\
    Forall2 extracted [article] data /\
    Forall (fun a => trimmed (headline a) /\ trimmed (url a) /\
                     trimmed (author a) /\ trimmed (date a)) data /\
    headlines (fst (scrape_page [article] constructor))
      = headlines constructor ++ map headline data /\
    authors (fst (scrape_page [article] constructor))
      = authors constructor ++ map author data /\
    dates (fst (scrape_page [article] constructor))
      = dates constructor ++ map date data /\
    urls (fst (scrape_page [article] constructor))
      = urls constructor ++ map url data /\
    id (fst (scrape_page [article] constructor)) = id constructor.
Proof.
  intros article. apply (scrape_page_complete [article] constructor).
  repeat constructor; simpl; eauto.
Defined.

(** X8. One list item that lacks its headline, its link or one of its two
    spans makes the whole [scrape] fail with a TypeError: nothing is
    stored, not even the items that come before it. *)
Theorem scrape_page_all_or_nothing articles s :
  Exists (fun article => ~ complete article) articles ->
  scrape_page articles s = (s, Throws "TypeError").
Proof.
  intros H. unfold scrape_page.
  rewrite (page_evaluate_incomplete articles [] H). reflexivity.
Qed.

Lemma scrape_page_all_or_nothing_witness :
  scrape_page
    [{| headlineElement := Some "A"; urlElement := Some "u";
        spans := ["Bob"; "Jan 5"] |};
     {| headlineElement := Some "B"; urlElement := Some "v";
        spans := ["Ann"] |}] constructor
  = (constructor, Throws "TypeError").
Proof.
  apply scrape_page_all_or_nothing.
  apply Exists_cons_tl, Exists_cons_hd.
  intros (_ & _ & H). simpl in H. lia.
Defined.

(** ** The invariant of the scraper and the bounds of [saveToCsv] *)

Lemma saveToCsv_loop_arrays years n i s (fs : gmap string string) :
  let s' := fst (fst (saveToCsv_loop years n i s fs)) in
  headlines s' = headlines s /\ authors s' = authors s /\
  dates s' = dates s /\ urls s' = urls s.
Proof.
  revert i s fs. induction n as [| n IH]; intros i s fs; cbn [saveToCsv_loop].
  - cbn. auto.
  - destruct (dateFormatConversion_call (years i) (dates s !! i)) as [d | e].
    + match goal with
      | |- context [saveToCsv_loop years n (S i) ?s1 ?fs1] =>
          specialize (IH (S i) s1 fs1)
      end.
      cbv zeta in *. cbn [headlines authors dates urls] in IH. exact IH.
    + cbn. auto.
Qed.

Lemma saveToCsv_loop_bounds years n i s (fs : gmap string string) :
  (i <= length (dates s))%nat ->
  let w := saveToCsv_loop years n i s fs in
  ((i + n <= length (dates s))%nat ->
   snd w = Returns tt /\ id (fst (fst w)) = id s + Z.of_nat n)
  /\ ((length (dates s) < i + n)%nat ->
      snd w = Throws "TypeError" /\
      id (fst (fst w)) = id s + Z.of_nat (length (dates s) - i) + 1).
Proof.
  revert i s fs. induction n as [| n IH]; intros i s fs Hi;
    cbn [saveToCsv_loop]; cbv zeta.
  - split; [intros _; cbn; split; [reflexivity | lia] | lia].
  - destruct (dates s !! i) as [raw | ] eqn:E.
    + apply lookup_lt_Some in E. cbn [dateFormatConversion_call].
      match goal with
      | |- context [saveToCsv_loop years n (S i) ?s1 ?fs1] =>
          set (S1 := s1); set (F1 := fs1); specialize (IH (S i) S1 F1)
      end.
      cbv zeta in IH. change (dates S1) with (dates s) in IH.
      change (id S1) with (id s + 1) in IH.
      destruct (IH ltac:(lia)) as [IH1 IH2]. split; intros H.
      * destruct (IH1 ltac:(lia)) as [E1 E2].
        split; [exact E1 | etransitivity; [exact E2 | lia]].
      * destruct (IH2 ltac:(lia)) as [E1 E2].
        split; [exact E1 | etransitivity; [exact E2 | lia]].
    + apply lookup_ge_None in E. cbn [dateFormatConversion_call fst snd id].
      split; intros H; [lia | ]. split; [reflexivity | lia].
Qed.

Lemma saveToCsv_loop_content years n i s c (fs : gmap string string) :
  exists rows,
    snd (fst (saveToCsv_loop years n i s (<[filename := c]> fs)))
    = <[filename := c +:+ rows]> fs.
Proof.
  revert i s c. induction n as [| n IH]; intros i s c.
  - exists EmptyString. rewrite append_empty_r. reflexivity.
  - cbn [saveToCsv_loop].
    destruct (dateFormatConversion_call (years i) (dates s !! i)) as [d | e].
    + rewrite appendFile_insert.
      match goal with
      | |- context [saveToCsv_loop years n (S i) ?s1 (<[filename := c +:+ ?l]> fs)] =>
          destruct (IH (S i) s1 (c +:+ l)) as [rows ->]
      end.
      eexists. rewrite append_assoc. reflexivity.
    + exists EmptyString. rewrite append_empty_r. reflexivity.
Qed.

Lemma aligned_scrape data s : aligned s -> aligned (scrape data s).
Proof.
  unfold aligned. intros (Ha & Hd & Hu).
  destruct (scrape_fields data s) as (-> & -> & -> & -> & _).
  rewrite !length_app, !length_map. lia.
Qed.

(** X9. The four arrays of the scraper always have the same length: this
    holds at construction and is kept by [scrape], whether it returns or
    throws, and by [saveToCsv]. *)
Theorem aligned_invariant :
  aligned constructor
  /\ (forall articles s, aligned s -> aligned (fst (scrape_page articles s)))
  /\ (forall years s (fs : gmap string string),
         aligned s -> aligned (fst (fst (saveToCsv years s fs)))).
Proof.
  split; [repeat split | split].
  - intros articles s H. unfold scrape_page.
    destruct (page_evaluate articles []) as [data | e]; cbn [fst];
      [apply aligned_scrape | ]; exact H.
  - intros years s fs H. unfold saveToCsv, aligned in *.
    destruct (saveToCsv_loop_arrays years (length (headlines s)) 0 s
                (writeFile filename header fs)) as (-> & -> & -> & ->).
    exact H.
Qed.

Lemma aligned_invariant_witness :
  aligned
    (fst (fst (saveToCsv (fun _ => 2024)
                 (fst (scrape_page
                         [{| headlineElement := Some "A";
                             urlElement := Some "https://x/1";
                             spans := ["Bob"; "Jan 5"] |}] constructor))
                 ∅))).
Proof.
  destruct aligned_invariant as (H0 & Hscrape & Hsave).
  apply Hsave, Hscrape, H0.
Defined.

(** X10. [saveToCsv] changes the counter and the CSV file and nothing
    else: the four arrays are as before, every other file is as before,
    and the CSV file begins with the header line whatever it held. *)
Theorem saveToCsv_frame years s (fs : gmap string string) :
  let w := saveToCsv years s fs in
  headlines (fst (fst w)) = headlines s /\
  authors (fst (fst w)) = authors s /\
  dates (fst (fst w)) = dates s /\
  urls (fst (fst w)) = urls s /\
  (forall file, file <> filename -> snd (fst w) !! file = fs !! file) /\
  (exists rows, csv_file w = Some (header +:+ rows)).
Proof.
  cbv zeta. unfold saveToCsv, writeFile, csv_file.
  destruct (saveToCsv_loop_arrays years (length (headlines s)) 0 s
              (<[filename := header]> fs)) as (-> & -> & -> & ->).
  destruct (saveToCsv_loop_content years (length (headlines s)) 0 s
              header fs) as [rows ->].
  repeat split; try reflexivity.
  - intros file Hf. apply lookup_insert_ne. congruence.
  - exists rows. apply lookup_insert_eq.
Qed.

Lemma saveToCsv_frame_witness :
  snd (fst (saveToCsv (fun _ => 2024)
              (batch_of [{| headline := "A"; url := "https://x/1";
                            author := "Bob"; date := "Jan 5" |}] 0)
              {["notes.txt" := "keep"]})) !! "notes.txt"
  = Some "keep".
Proof.
  destruct (saveToCsv_frame (fun _ => 2024)
              (batch_of [{| headline := "A"; url := "https://x/1";
                            author := "Bob"; date := "Jan 5" |}] 0)
              {["notes.txt" := "keep"]}) as (_ & _ & _ & _ & H & _).
  rewrite H; [reflexivity | discriminate].
Defined.

(** X11. [saveToCsv] returns normally exactly when [dates] is at least as
    long as [headlines], and then the counter has advanced by the number
    of headlines.  Otherwise it throws a TypeError at the first index
    without a date, after advancing the counter for that line too. *)
Theorem saveToCsv_bounds years s (fs : gmap string string) :
  let w := saveToCsv years s fs in
  (snd w = Returns tt <-> (length (headlines s) <= length (dates s))%nat)
  /\ ((length (headlines s) <= length (dates s))%nat ->
      id (fst (fst w)) = id s + Z.of_nat (length (headlines s)))
  /\ ((length (dates s) < length (headlines s))%nat ->
      snd w = Throws "TypeError" /\
      id (fst (fst w)) = id s + Z.of_nat (length (dates s)) + 1).
Proof.
  cbv zeta. unfold saveToCsv.
  destruct (saveToCsv_loop_bounds years (length (headlines s)) 0 s
              (writeFile filename header fs) ltac:(lia)) as [H1 H2].
  cbv zeta in H1, H2. cbn [Nat.add] in H1, H2.
  rewrite Nat.sub_0_r in H2.
  split; [split | split].
  - intros E. destruct (Nat.le_gt_cases (length (headlines s))
                          (length (dates s))) as [Hle | Hgt]; [exact Hle | ].
    destruct (H2 Hgt) as [E' _]. congruence.
  - intros Hle. apply (H1 Hle).
  - intros Hle. apply (H1 Hle).
  - exact H2.
Qed.

Lemma saveToCsv_bounds_witness :
  let s := {| headlines := ["A"; "B"]; authors := ["x"; "y"];
              dates := ["Jan 5"]; urls := ["u"; "v"]; id := 0 |} in
  snd (saveToCsv (fun _ => 2024) s ∅) = Throws "TypeError" /\
  id (fst (fst (saveToCsv (fun _ => 2024) s ∅)))
  = id s + Z.of_nat (length (dates s)) + 1.
Proof.
  intros s.
  apply (proj2 (proj2 (saveToCsv_bounds (fun _ => 2024) s ∅))).
  simpl. lia.
Defined.

(** ** The row store *)

(** X12. Whatever the order in which the INSERT statements of a run
    execute, the run creates the table if it is missing, keeps every row
    the table held, in place, and adds after them one row per index of
    [headlines]: the rows come in the order in which the statements ran,
    and the four columns of a row are the entries of the four arrays at the
    index of its statement, each index being used once; an empty batch
    adds nothing. *)
Theorem persist_appends_rows pick order s table :
  schedule s order ->
  room (length (headlines s)) (default [] table) ->
  exists rows,
    persist_scheduled pick order s table = Some (default [] table ++ rows)
    /\ length rows = length (headlines s)
    /\ Permutation (map row_fields rows)
         (map (bound_fields s) (seq 0 (length (headlines s))))
    /\ forall j r,
        rows !! j = Some r ->
        exists i,
          order !! j = Some i /\
          row_url r = urls s !! i /\
          row_headline r = headlines s !! i /\
          row_author r = authors s !! i /\
          row_date r = dates s !! i.
Proof.
  intros Hs Hroom.
  destruct (persist_scheduled_rows pick order s table Hs Hroom)
    as (rows & E & Hrows & Hperm).
  exists rows. split; [exact E | ]. split; [ | split; [exact Hperm | ]].
  - apply Permutation_length in Hperm.
    rewrite !length_map, length_seq in Hperm. exact Hperm.
  - intros j r Hr.
    assert (H : (bound_fields s <$> order) !! j = Some (row_fields r)).
    { change (bound_fields s <$> order) with (map (bound_fields s) order).
      rewrite <- Hrows. change (map row_fields rows) with (row_fields <$> rows).
      rewrite list_lookup_fmap, Hr. reflexivity. }
    rewrite list_lookup_fmap in H.
    destruct (order !! j) as [i | ]; [ | discriminate].
    exists i. split; [reflexivity | ].
    cbn in H. injection H as H.
    unfold bound_fields, row_fields in H. repeat split; congruence.
Qed.

Lemma persist_appends_rows_witness :
  let r := {| row_id := 5; row_url := None; row_headline := None;
              row_author := None; row_date := None |} in
  let s := batch_of [{| headline := "A"; url := "u"; author := "Bob";
                        date := "Jan 5" |};
                     {| headline := "B"; url := "v"; author := "Eve";
                        date := "Feb 7" |}] 0 in
  exists rows,
    persist_scheduled (fun _ => None) [1%nat; 0%nat] s (Some [r])
    = Some ([r] ++ rows)
    /\ length rows = 2%nat
    /\ forall x, rows !! 0%nat = Some x -> row_date x = Some "Feb 7".
Proof.
  intros r s.
  destruct (persist_appends_rows (fun _ => None) [1%nat; 0%nat] s (Some [r]))
    as (rows & E & Hlen & _ & H).
  - apply perm_swap.
  - vm_compute. discriminate.
  - exists rows. split; [exact E | ]. split; [exact Hlen | ].
    intros x Hx. destruct (H 0%nat x Hx) as (i & Hi & _ & _ & _ & Hd).
    injection Hi as <-. exact Hd.
Defined.

(** ** The verification pass *)

Lemma check_line_errors i line e :
  In e (check_line i line) -> exists message, e = error message.
Proof.
  unfold check_line.
  destruct (negb _); [intros [<- | []]; eauto | ].
  rewrite !in_app_iff.
  repeat match goal with
    | |- context [if ?b then _ else _] => destruct b
    end; cbn [In]; intuition (subst; eauto).
Qed.

(** X15. "All tests passed!" is printed exactly when the header is the
    expected one and the store holds as many rows as the scraper holds
    headlines: violations found in the data lines do not prevent it. *)
Theorem verify_all_tests_passed csvData table s :
  In (log "All tests passed!") (verify csvData table s) <->
  trim (field (JS.split "010" csvData) 0)
    = "id | URL | headline | author | date" /\
  exists rows, table = Some rows /\ length rows = length (headlines s).
Proof.
  unfold verify.
  destruct (String.eqb_spec (trim (field (JS.split "010" csvData) 0))
              "id | URL | headline | author | date") as [Hh | Hh];
    cbn [negb].
  - rewrite !in_app_iff. cbn [In]. split.
    + intros [[H | []] | [H | [[H | []] | H]]]; try discriminate.
      * apply in_concat in H as (l & Hl & He).
        apply in_map_iff in Hl as ([i line] & <- & _).
        destruct (check_line_errors _ _ _ He) as [m Hm]. discriminate.
      * split; [exact Hh | ]. unfold check_database in H.
        destruct table as [rows | ]; [ | destruct H as [H | []]; discriminate].
        exists rows. split; [reflexivity | ].
        destruct (Z.eqb_spec (Z.of_nat (length rows))
                    (Z.of_nat (length (headlines s)))) as [E | E];
          [lia | ].
        cbn [negb] in H. destruct H as [H | []]. discriminate.
    + intros (_ & rows & -> & Hlen). right. right. right.
      unfold check_database. rewrite Hlen, Z.eqb_refl. left. reflexivity.
  - split.
    + intros [H | [H | []]]; discriminate.
    + intros [H _]. contradiction.
Qed.

Lemma split_nonempty sep s : JS.split sep s <> [].
Proof.
  destruct s as [| c s]; simpl; [discriminate | ].
  destruct (Ascii.eqb c sep); [discriminate | ].
  destruct (JS.split sep s); discriminate.
Qed.

Lemma split_app_sep sep s t :
  JS.split sep (s +:+ String sep t) = JS.split sep s ++ JS.split sep t.
Proof.
  induction s as [| c s IH]; simpl.
  - rewrite Ascii.eqb_refl. reflexivity.
  - destruct (Ascii.eqb c sep); [rewrite IH; reflexivity | ].
    rewrite IH. pose proof (split_nonempty sep s) as Hne.
    destruct (JS.split sep s); [congruence | reflexivity].
Qed.

Lemma data_lines_last l t1 t2 :
  l <> [] ->
  field (l ++ [t1]) 0 = field (l ++ [t2]) 0 /\
  data_lines (l ++ [t1]) = data_lines (l ++ [t2]).
Proof.
  intros Hne. split.
  - destruct l; [congruence | reflexivity].
  - unfold data_lines. rewrite !length_app. cbn [length].
    apply map_ext_in. intros i Hi. apply in_seq in Hi.
    unfold field. rewrite !lookup_app_l by lia. reflexivity.
Qed.

(** X16. The text after the last newline of the file is never examined:
    two files that differ only there give the same report.  In
    particular a last line that does not end in a newline is not
    checked. *)
Theorem verify_ignores_last_line s t1 t2 table sc :
  all_chars not_newline t1 = true ->
  all_chars not_newline t2 = true ->
  verify (s +:+ newline +:+ t1) table sc
  = verify (s +:+ newline +:+ t2) table sc.
Proof.
  intros H1 H2. unfold verify.
  change (newline +:+ ?x) with (String "010" x).
  rewrite !split_app_sep.
  rewrite (split_no_sep "010" t1 H1), (split_no_sep "010" t2 H2).
  destruct (data_lines_last (JS.split "010" s) t1 t2 (split_nonempty _ _))
    as [-> ->].
  reflexivity.
Qed.

Lemma verify_ignores_last_line_witness :
  verify ("id | URL | headline | author | date" +:+ newline +:+ "garbage")
    None constructor
  = verify ("id | URL | headline | author | date" +:+ newline +:+ EmptyString)
      None constructor.
Proof.
  apply verify_ignores_last_line; reflexivity.
Defined.

Lemma line_body_trim z u h a d :
  0 < z -> all_chars is_date_char d = true -> d <> EmptyString ->
  trim (line_body z u h a d) = line_body z u h a d.
Proof.
  intros Hz Hd Hne. unfold trim.
  destruct (Number_toString_pos z Hz) as (c & r & E & Hc & _).
  destruct (digit_facts c Hc) as (Hs & _).
  assert (E1 : trimStart (line_body z u h a d) = line_body z u h a d).
  { unfold line_body. rewrite E. apply (trimStart_cons c _ Hs). }
  rewrite E1. unfold line_body. rewrite <- !append_assoc.
  pose proof (trimEnd_nonspace d (date_chars_space d Hd)) as Ed.
  rewrite trimEnd_app by (rewrite Ed; exact Hne).
  rewrite Ed. reflexivity.
Qed.

Lemma length_nonzero s :
  s <> EmptyString -> (String.length s =? 0)%nat = false.
Proof. destruct s; [congruence | reflexivity]. Qed.

(** A line written for a well-formed article passes every check. *)
Lemma check_line_body i z a d :
  0 < z -> well_formed a ->
  all_chars is_date_char d = true -> d <> EmptyString ->
  check_line i (line_body z (url a) (headline a) (author a) d) = [].
Proof.
  intros Hz (Hu & Hh & Ha & Hhttp & Hauthor) Hd Hne.
  unfold check_line. rewrite line_body_fields by assumption.
  cbn [length Nat.eqb negb map].
  unfold field. cbn [lookup list_lookup default from_option].
  unfold Datatypes.id.
  rewrite parseInt_decimal by exact Hz. cbn [isNaN].
  rewrite (startsWith_trim "http" (url a) eq_refl Hhttp). cbn [negb].
  rewrite (length_nonzero (trim (author a)) Hauthor).
  rewrite (length_nonzero d Hne).
  rewrite length_nonzero; [reflexivity | ].
  unfold trim, quote. cbn [String.append].
  rewrite trimStart_cons by reflexivity.
  rewrite trimEnd_cons by reflexivity. discriminate.
Qed.

Lemma saveToCsv_lines_from years data k (fs : gmap string string) :
  Forall well_formed data ->
  let bodies :=
    imap (fun j a =>
            line_body (k + Z.of_nat j + 1) (url a) (headline a) (author a)
              (dateFormatConversion (years j) (date a))) data in
  exists csvData,
    csv_file (saveToCsv years (batch_of data k) fs) = Some csvData /\
    JS.split "010" csvData
    = "id | URL | headline | author | date" :: bodies ++ [EmptyString].
Proof.
  intros Hwf bodies. rewrite saveToCsv_batch.
  unfold csv_file. cbn [fst snd]. rewrite lookup_insert_eq.
  eexists. split; [reflexivity | ].
  assert (Hrows : csv_rows years 0 k data
                  = join (map (fun b => b +:+ newline) bodies)).
  { unfold csv_rows, bodies. apply (f_equal join).
    change (map ?f ?l) with (f <$> l). rewrite fmap_imap.
    apply imap_ext. intros j a _. unfold compose.
    rewrite line_of_body. reflexivity. }
  rewrite Hrows. unfold header. rewrite append_assoc.
  change (newline +:+ ?x) with (String "010" x).
  rewrite split_app by reflexivity.
  rewrite split_lines; [reflexivity | ].
  apply Forall_lookup_2. intros j b Hb. unfold bodies in Hb.
  rewrite list_lookup_imap in Hb.
  destruct (data !! j) as [a | ] eqn:Ha; [ | discriminate].
  injection Hb as <-.
  destruct (proj1 (Forall_lookup _ _) Hwf j a Ha) as (Hu & Hh & Hau & _).
  apply line_body_no_newline; auto.
  apply dateFormatConversion_chars.
Qed.

Lemma concat_map_nil {A B} (f : A -> list B) l :
  (forall x, In x l -> f x = []) -> concat (map f l) = [].
Proof.
  induction l as [| x l IH]; intros H; [reflexivity | ].
  cbn [map concat]. rewrite (H x (or_introl eq_refl)).
  apply IH. intros y Hy. apply H. right. exact Hy.
Qed.

(** X17. The file [saveToCsv] writes for well-formed articles passes the
    header check and every check on every line, whatever the counter
    stood at (from 0 on): the verification prints no violation of the
    file, only the outcome of the count query. *)
Theorem verify_written years data k (fs : gmap string string) table :
  0 <= k -> Forall well_formed data ->
  let w := saveToCsv years (batch_of data k) fs in
  exists csvData,
    csv_file w = Some csvData /\
    verify csvData table (fst (fst w))
    = [log "Verifying articles in CSV file...";
       log "Verifying articles in database..."]
      ++ check_database table (fst (fst w)).
Proof.
  intros Hk Hwf. cbv zeta.
  destruct (saveToCsv_lines_from years data k fs Hwf)
    as (csvData & Hfile & Hsplit).
  cbv zeta in Hsplit. exists csvData. split; [exact Hfile | ].
  unfold verify. rewrite Hsplit.
  change (negb (String.eqb (trim (field (_ :: _) 0)) _)) with false.
  cbv iota. rewrite concat_map_nil; [reflexivity | ].
  intros [i line] Hin. cbn [fst snd].
  assert (Hline : In line (map snd (data_lines
            ("id | URL | headline | author | date"
             :: imap (fun j a =>
                        line_body (k + Z.of_nat j + 1) (url a) (headline a)
                          (author a)
                          (dateFormatConversion (years j) (date a))) data
                ++ [EmptyString])))).
  { apply in_map_iff. exists (i, line). split; [reflexivity | exact Hin]. }
  rewrite data_lines_middle in Hline.
  apply list_elem_of_In, list_elem_of_lookup in Hline as [j Hj].
  rewrite list_lookup_imap in Hj.
  destruct (data !! j) as [a | ] eqn:Ha; [ | discriminate].
  injection Hj as <-.
  destruct (dateFormatConversion_chars (years j) (date a)) as [Hd Hne].
  apply check_line_body; try assumption; [lia | ].
  exact (proj1 (Forall_lookup _ _) Hwf j a Ha).
Qed.

Lemma verify_written_witness :
  let data := [{| headline := "A"; url := "https://x/1";
                  author := "Bob"; date := "Jan 5" |}] in
  let w := saveToCsv (fun _ => 2024) (batch_of data 7) ∅ in
  exists csvData,
    csv_file w = Some csvData /\
    verify csvData None (fst (fst w))
    = [log "Verifying articles in CSV file...";
       log "Verifying articles in database..."]
      ++ check_database None (fst (fst w)).
Proof.
  intros data.
  apply (verify_written (fun _ => 2024) data 7 ∅ None).
  - lia.
  - repeat constructor; vm_compute; discriminate.
Defined.

Lemma length_split sep s :
  length (JS.split sep s) = S (count_char sep s).
Proof.
  induction s as [| c s IH]; [reflexivity | ].
  cbn [JS.split count_char]. destruct (Ascii.eqb c sep).
  - cbn [length]. rewrite IH. reflexivity.
  - pose proof (split_nonempty sep s) as Hne.
    destruct (JS.split sep s); [congruence | exact IH].
Qed.

Lemma count_char_app c s t :
  count_char c (s +:+ t) = (count_char c s + count_char c t)%nat.
Proof.
  induction s as [| b s IH]; [reflexivity | ].
  cbn [String.append count_char]. rewrite IH. lia.
Qed.

Lemma count_char_no_bar s :
  all_chars not_bar s = true -> count_char "|" s = 0%nat.
Proof.
  induction s as [| b s IH]; [reflexivity | ].
  cbn [all_chars count_char]. rewrite andb_true_iff. intros [Hb Hs].
  apply negb_true_iff in Hb. rewrite Hb, (IH Hs). reflexivity.
Qed.

Lemma line_body_bar_count z u h a d :
  all_chars is_date_char d = true ->
  count_char "|" (line_body z u h a d)
  = (4 + (count_char "|" u + count_char "|" h + count_char "|" a))%nat.
Proof.
  intros Hd. unfold line_body. rewrite !count_char_app.
  rewrite (count_char_no_bar _
             (date_chars_bar _ (Number_toString_date_chars (Int z)))).
  rewrite (count_char_no_bar d (date_chars_bar d Hd)).
  change (count_char "|" " | ") with 1%nat.
  change (count_char "|" quote) with 0%nat. lia.
Qed.

(** X18. A bar inside the url, the headline or the author of a written
    line is taken for a separator: the line is reported as not having the
    expected number of fields, and nothing else about it is checked,
    exactly when those three texts hold a bar. *)
Theorem check_line_bars i z u h a d :
  0 < z -> all_chars is_date_char d = true -> d <> EmptyString ->
  let bars := (count_char "|" u + count_char "|" h + count_char "|" a)%nat in
  let message :=
    error ("CSV line " +:+ Number_toString (Int (Z.of_nat i + 1)) +:+
           " does not have expected number of fields") in
  (bars = 0%nat -> ~ In message (check_line i (line_body z u h a d)))
  /\ (bars <> 0%nat -> check_line i (line_body z u h a d) = [message]).
Proof.
  intros Hz Hd Hne. cbv zeta.
  assert (Hlen : length (map trim (JS.split "|" (trim (line_body z u h a d))))
                 = (5 + (count_char "|" u + count_char "|" h
                         + count_char "|" a))%nat).
  { rewrite length_map, (line_body_trim z u h a d Hz Hd Hne).
    rewrite length_split, (line_body_bar_count z u h a d Hd). lia. }
  split; intros Hb.
  - rewrite Hb in Hlen. rewrite (check_line_five i _ Hlen).
    rewrite !in_app_iff.
    repeat match goal with
      | |- context [if ?b then _ else _] => destruct b
      end; cbn [In];
      intros H; repeat destruct H as [H | H]; try contradiction;
      revert H; apply message_neq; discriminate.
  - apply check_line_short. lia.
Qed.

Lemma check_line_bars_witness :
  check_line 1 (line_body 1 "https://x/1" "A|B" "Bob" "2024/1/5")
  = [error ("CSV line " +:+ Number_toString (Int (Z.of_nat 1 + 1)) +:+
            " does not have expected number of fields")].
Proof.
  apply (proj2 (check_line_bars 1 1 "https://x/1" "A|B" "Bob" "2024/1/5"
                  ltac:(lia) eq_refl ltac:(discriminate))).
  discriminate.
Defined.
